(** * Verification of the todo task stores

    Two programs of the repository are embedded here:
    - [src/Claude/todoapp/todoapp.py], class [TodoTaskTool]: a task store kept
      in a JSON file (module [TodoTaskTool] below);
    - [src/Perplexity/todoapp.py], class [TodoApp]: the reduced store kept in a
      text file with one [description|status] line per task (module [TodoApp]).

    Python text is modelled by [string], whose characters are the code points
    below 256.  The file system is reduced to the one backing file of a store,
    the console to the list of printed lines, and exceptions are explicit: an
    operation is a function from the state of the program to an [outcome]. *)

From Stdlib Require Import Bool Arith ZArith List String Ascii Lia Permutation.
From Stdlib Require Import DecimalString DecimalZ DecimalPos DecimalFacts.
Import ListNotations.

Local Open Scope string_scope.
Local Open Scope Z_scope.

(** ** Python text operations *)

Module Py.

(** [len(s)] of a list, as a Python integer. *)
Definition len {A : Type} (l : list A) : Z := Z.of_nat (List.length l).

Definition code (c : ascii) : nat := nat_of_ascii c.

Definition between (lo hi : nat) (c : ascii) : bool :=
  (Nat.leb lo (code c) && Nat.leb (code c) hi)%bool.

(** [c.isupper()] on code points below 256: A-Z, and the Latin-1 capital
    letters U+00C0..U+00DE without the multiplication sign U+00D7. *)
Definition isupper (c : ascii) : bool :=
  (between 65 90 c || (between 192 222 c && negb (Nat.eqb (code c) 215)))%bool.

Definition lower_char (c : ascii) : ascii :=
  if isupper c then ascii_of_nat (code c + 32) else c.

(** [s.lower()] *)
Fixpoint lower (s : string) : string :=
  match s with
  | EmptyString => EmptyString
  | String c r => String (lower_char c) (lower r)
  end.

(** [c.isspace()] on code points below 256. *)
Definition isspace (c : ascii) : bool :=
  (between 9 13 c || between 28 32 c || Nat.eqb (code c) 133
   || Nat.eqb (code c) 160)%bool.

Fixpoint lstrip (s : string) : string :=
  match s with
  | EmptyString => EmptyString
  | String c r => if isspace c then lstrip r else s
  end.

Fixpoint rstrip (s : string) : string :=
  match s with
  | EmptyString => EmptyString
  | String c r =>
      match rstrip r with
      | EmptyString => if isspace c then EmptyString else String c EmptyString
      | r' => String c r'
      end
  end.

(** [s.strip()] *)
Definition strip (s : string) : string := rstrip (lstrip s).

(** [s.split(sep)] for a separator of one character. *)
Fixpoint split (sep : ascii) (s : string) : list string :=
  match s with
  | EmptyString => [EmptyString]
  | String c r =>
      if Ascii.eqb c sep then EmptyString :: split sep r
      else match split sep r with
           | h :: t => String c h :: t
           | [] => [String c EmptyString]
           end
  end.

Definition LF : ascii := ascii_of_nat 10.
Definition CR : ascii := ascii_of_nat 13.

(** [f.readlines()] of a file opened in text mode: the text is cut after every
    line end, and the line ends [\r\n] and [\r] are read as [\n] (universal
    newlines).  [cur] is the line read so far. *)
Fixpoint readlines_from (cur : string) (s : string) : list string :=
  match s with
  | EmptyString =>
      match cur with EmptyString => [] | _ => [cur] end
  | String c r =>
      if Ascii.eqb c LF then (cur ++ String LF EmptyString)%string :: readlines_from EmptyString r
      else if Ascii.eqb c CR then
        match r with
        | String c' r' =>
            if Ascii.eqb c' LF
            then (cur ++ String LF EmptyString)%string :: readlines_from EmptyString r'
            else (cur ++ String LF EmptyString)%string :: readlines_from EmptyString r
        | EmptyString => [(cur ++ String LF EmptyString)%string]
        end
      else readlines_from (cur ++ String c EmptyString)%string r
  end.

Definition readlines (s : string) : list string := readlines_from EmptyString s.

(** [str(n)] of an integer: its decimal writing. *)
Definition str_of_int (n : Z) : string := NilZero.string_of_int (Z.to_int n).

(** [x in l] for a list of strings. *)
Definition str_in (x : string) (l : list string) : bool :=
  existsb (String.eqb x) l.



End Py.

(** ** The program state: backing file, console, exceptions *)

(** The backing file of a store.  [content = None]: no file at the path.
    [readable] and [writable] say whether [open(path, 'r')] and
    [open(path, 'w')] succeed (permissions, a full disk, a directory in the
    way of the path). *)
Record file : Type := mkFile {
  content : option string;
  readable : bool;
  writable : bool
}.

(** The exceptions the two programs can meet. *)
Inductive exn : Type :=
| IOError           (* OSError and its subclasses *)
| JSONDecodeError
| IndexError.

Definition exn_eqb (a b : exn) : bool :=
  match a, b with
  | IOError, IOError | JSONDecodeError, JSONDecodeError
  | IndexError, IndexError => true
  | _, _ => false
  end.

(** The state of a running store over tasks of type [T]: the attributes
    [self.filename] and [self.tasks], the file behind [self.filename] and the
    lines printed so far. *)
Record state (T : Type) : Type := mkState {
  filename : string;
  tasks : list T;
  disk : file;
  stdout : list string
}.
Arguments mkState {T}.
Arguments filename {T}.
Arguments tasks {T}.
Arguments disk {T}.
Arguments stdout {T}.

(** What running a piece of code gives: a value, or an exception on its way to
    the caller; in both cases with the state the code left. *)
Inductive outcome (S A : Type) : Type :=
| Returned (a : A) (s : S)
| Raised (e : exn) (s : S).
Arguments Returned {S A}.
Arguments Raised {S A}.

Definition final {S A} (o : outcome S A) : S :=
  match o with Returned _ s => s | Raised _ s => s end.

Definition M (S A : Type) : Type := S -> outcome S A.

Definition ret {S A} (a : A) : M S A := fun s => Returned a s.

Definition bind {S A B} (m : M S A) (k : A -> M S B) : M S B :=
  fun s => match m s with
           | Returned a s' => k a s'
           | Raised e s' => Raised e s'
           end.

Definition raise {S A} (e : exn) : M S A := fun s => Raised e s.

(** [try: body except (caught): handler] *)
Definition try_except {S A} (body : M S A) (caught : list exn) (handler : M S A)
  : M S A :=
  fun s => match body s with
           | Returned a s' => Returned a s'
           | Raised e s' =>
               if existsb (exn_eqb e) caught then handler s' else Raised e s'
           end.

Declare Scope py_scope.
Delimit Scope py_scope with py.
Notation "x <- m ;; k" := (bind m (fun x => k))
  (at level 61, m at next level, right associativity) : py_scope.
Notation "m ;;; k" := (bind m (fun _ => k))
  (at level 61, right associativity) : py_scope.

Section Primitives.
Context {T : Type}.
Local Open Scope py_scope.

Definition get_tasks : M (state T) (list T) := fun s => Returned (tasks s) s.

Definition set_tasks (ts : list T) : M (state T) unit :=
  fun s => Returned tt (mkState (filename s) ts (disk s) (stdout s)).

Definition get_filename : M (state T) string :=
  fun s => Returned (filename s) s.

(** [print(msg)] *)
Definition print (msg : string) : M (state T) unit :=
  fun s => Returned tt (mkState (filename s) (tasks s) (disk s) (stdout s ++ [msg])).

(** [os.path.exists(self.filename)] *)
Definition path_exists : M (state T) bool :=
  fun s => Returned (match content (disk s) with Some _ => true | None => false end) s.

(** [open(self.filename, 'r')] followed by reading the whole text. *)
Definition read_file : M (state T) string :=
  fun s => match content (disk s) with
           | Some text => if readable (disk s) then Returned text s
                          else Raised IOError s
           | None => Raised IOError s
           end.

Definition set_content (text : string) (s : state T) : state T :=
  mkState (filename s) (tasks s)
          (mkFile (Some text) (readable (disk s)) (writable (disk s)))
          (stdout s).

(** [open(self.filename, 'w')]: the file is created or emptied. *)
Definition open_w : M (state T) unit :=
  fun s => if writable (disk s) then Returned tt (set_content EmptyString s)
           else Raised IOError s.

(** [f.write(text)] on the file opened by [open_w]. *)
Definition write (text : string) : M (state T) unit :=
  fun s => match content (disk s) with
           | Some old => Returned tt (set_content (old ++ text) s)
           | None => Raised IOError s
           end.
End Primitives.

(** ** JSON documents: [json.dump(obj, f, indent=2)] and [json.load(f)] *)

Module Json.

Local Open Scope nat_scope.

#[local] Set Warnings "-register-all".

(** The Python objects a JSON document stands for.  A float keeps the text of
    its literal: no operation of the stores computes with one. *)
Inductive json : Type :=
| JNull
| JBool (b : bool)
| JInt (n : Z)
| JFloat (literal : string)
| JStr (s : string)
| JList (items : list json)
| JDict (items : list (string * json)).

Definition QUOTE : ascii := ascii_of_nat 34.
Definition BACKSLASH : ascii := ascii_of_nat 92.
Definition SPACE : ascii := ascii_of_nat 32.

Definition str1 (c : ascii) : string := String c EmptyString.

(** *** Writing *)

Definition hex_digit (n : nat) : ascii :=
  if Nat.ltb n 10 then ascii_of_nat (48 + n) else ascii_of_nat (87 + n).

(** One character of a string literal, as [ensure_ascii=True] writes it:
    the printable ASCII characters stand for themselves, apart from the quote
    and the backslash; every other character is escaped. *)
Definition escape_char (c : ascii) : string :=
  let n := Py.code c in
  if Nat.eqb n 34 then String BACKSLASH (str1 QUOTE)
  else if Nat.eqb n 92 then String BACKSLASH (str1 BACKSLASH)
  else if Nat.eqb n 10 then String BACKSLASH "n"
  else if Nat.eqb n 13 then String BACKSLASH "r"
  else if Nat.eqb n 9 then String BACKSLASH "t"
  else if Nat.eqb n 8 then String BACKSLASH "b"
  else if Nat.eqb n 12 then String BACKSLASH "f"
  else if (Nat.leb 32 n && Nat.leb n 126)%bool then str1 c
  else String BACKSLASH
         ("u00" ++ String (hex_digit (n / 16)) (str1 (hex_digit (n mod 16)))).

Fixpoint escape (s : string) : string :=
  match s with
  | EmptyString => EmptyString
  | String c r => escape_char c ++ escape r
  end.

Definition encode_string (s : string) : string :=
  String QUOTE (escape s ++ str1 QUOTE).

Fixpoint spaces (n : nat) : string :=
  match n with O => EmptyString | S k => String SPACE (spaces k) end.

(** The line break and indentation written before an item at nesting depth
    [level], for [indent=2]. *)
Definition newline_indent (level : nat) : string :=
  String Py.LF (spaces (2 * level)).

(** [json.dumps(v, indent=2)], for a value at nesting depth [level]. *)
Fixpoint dumps_at (level : nat) (v : json) : string :=
  match v with
  | JNull => "null"
  | JBool true => "true"
  | JBool false => "false"
  | JInt n => Py.str_of_int n
  | JFloat literal => literal
  | JStr s => encode_string s
  | JList [] => "[]"
  | JList (x :: xs) =>
      "[" ++ newline_indent (S level) ++ dumps_at (S level) x
      ++ (fix more (l : list json) : string :=
            match l with
            | [] => EmptyString
            | y :: ys => "," ++ newline_indent (S level) ++ dumps_at (S level) y
                         ++ more ys
            end) xs
      ++ newline_indent level ++ "]"
  | JDict [] => "{}"
  | JDict ((k, x) :: kvs) =>
      "{" ++ newline_indent (S level) ++ encode_string k ++ ": "
      ++ dumps_at (S level) x
      ++ (fix more (l : list (string * json)) : string :=
            match l with
            | [] => EmptyString
            | (k', y) :: ys => "," ++ newline_indent (S level) ++ encode_string k'
                               ++ ": " ++ dumps_at (S level) y ++ more ys
            end) kvs
      ++ newline_indent level ++ "}"
  end.

Definition dumps (v : json) : string := dumps_at 0 v.



(** *** Reading

    The decoder is written as an automaton that reads the text one character
    at a time, so that it is total: it keeps the containers that are open
    ([frame]), what the grammar allows next ([expect]) and the token being
    read ([mode]).  It accepts what [json.loads] accepts: white space is
    blank, tab, line feed and carriage return; strings are strict (no control
    character); a number is an optional minus sign, then 0 or a digit from 1
    to 9 followed by digits, then optionally a point and digits, then
    optionally an exponent (e or E, an optional sign, digits), and is a float
    when it has a fraction or an exponent;
    [NaN], [Infinity] and [-Infinity] are read as floats; of two equal keys
    of an object the last value is kept.  A [\uXXXX] escape of a code point
    that is not below 256 has no value in this model of text and is
    refused.  The limits of the interpreter (depth of nesting, number of
    digits of an integer) and the decoding of the bytes of the file into
    text are not part of the model. *)

Inductive frame : Type :=
| FList (done : list json)
| FDict (done : list (string * json)) (key : option string).

Inductive expect : Type :=
| XValue          (* a value *)
| XValueOrEnd     (* after '[': a value or ']' *)
| XKeyOrEnd       (* after '{': a key or '}' *)
| XKey            (* after ',' in an object: a key *)
| XColon          (* after a key *)
| XSep            (* after an item: ',' or the closing bracket *)
| XDone (v : json) (* after the document's value: white space only *).

Inductive numstate : Type :=
| NSign | NZero | NInt | NDot | NFrac | NExp | NExpSign | NExpDigits.

Inductive mode : Type :=
| Between
| InString (acc : string)
| InEscape (acc : string)
| InHex (acc : string) (digits : list nat)
| InWord (rest : string) (v : json)
| InNumber (literal : string) (ns : numstate).

Record pstate : Type := mkP {
  p_mode : mode;
  p_expect : expect;
  p_stack : list frame
}.

Definition is_ws (c : ascii) : bool :=
  let n := Py.code c in
  (Nat.eqb n 32 || Nat.eqb n 9 || Nat.eqb n 10 || Nat.eqb n 13)%bool.

Definition is_digit (c : ascii) : bool := Py.between 48 57 c.

Definition hex_value (c : ascii) : option nat :=
  let n := Py.code c in
  if Py.between 48 57 c then Some (n - 48)
  else if Py.between 97 102 c then Some (n - 87)
  else if Py.between 65 70 c then Some (n - 55)
  else None.

(** [dict(pairs)]: a key that comes again keeps its place and takes the new
    value. *)
Fixpoint dict_set (k : string) (v : json) (d : list (string * json))
  : list (string * json) :=
  match d with
  | [] => [(k, v)]
  | (k', v') :: r =>
      if String.eqb k k' then (k, v) :: r else (k', v') :: dict_set k v r
  end.

Definition dict_of (pairs : list (string * json)) : list (string * json) :=
  fold_left (fun d kv => dict_set (fst kv) (snd kv) d) pairs [].

(** A value [v] has just been read: it goes into the innermost open
    container, or is the document. *)
Definition push_value (v : json) (stack : list frame) : option pstate :=
  match stack with
  | [] => Some (mkP Between (XDone v) [])
  | FList done :: up => Some (mkP Between XSep (FList (done ++ [v]) :: up))
  | FDict done (Some k) :: up =>
      Some (mkP Between XSep (FDict (done ++ [(k, v)]) None :: up))
  | FDict _ None :: _ => None
  end.

Definition int_of_literal (literal : string) : Z :=
  match NilZero.int_of_string literal with
  | Some d => Z.of_int d
  | None => 0%Z
  end.

(** The value of a number whose literal ended in state [ns]; [None] when the
    literal is not complete there. *)
Definition number_value (literal : string) (ns : numstate) : option json :=
  match ns with
  | NZero | NInt => Some (JInt (int_of_literal literal))
  | NFrac | NExpDigits => Some (JFloat literal)
  | NSign | NDot | NExp | NExpSign => None
  end.

Definition start_value (c : ascii) (x : expect) (stack : list frame)
  : option pstate :=
  let n := Py.code c in
  if Nat.eqb n 34 then Some (mkP (InString EmptyString) x stack)
  else if Nat.eqb n 91 then Some (mkP Between XValueOrEnd (FList [] :: stack))
  else if Nat.eqb n 123 then Some (mkP Between XKeyOrEnd (FDict [] None :: stack))
  else if Nat.eqb n 110 then Some (mkP (InWord "ull" JNull) x stack)
  else if Nat.eqb n 116 then Some (mkP (InWord "rue" (JBool true)) x stack)
  else if Nat.eqb n 102 then Some (mkP (InWord "alse" (JBool false)) x stack)
  else if Nat.eqb n 78 then Some (mkP (InWord "aN" (JFloat "NaN")) x stack)
  else if Nat.eqb n 73 then Some (mkP (InWord "nfinity" (JFloat "Infinity")) x stack)
  else if Nat.eqb n 45 then Some (mkP (InNumber (str1 c) NSign) x stack)
  else if Nat.eqb n 48 then Some (mkP (InNumber (str1 c) NZero) x stack)
  else if is_digit c then Some (mkP (InNumber (str1 c) NInt) x stack)
  else None.

Definition close_list (stack : list frame) : option pstate :=
  match stack with
  | FList done :: up => push_value (JList done) up
  | _ => None
  end.

Definition close_dict (stack : list frame) : option pstate :=
  match stack with
  | FDict done None :: up => push_value (JDict (dict_of done)) up
  | _ => None
  end.

(** A character met between two tokens. *)
Definition step_between (x : expect) (stack : list frame) (c : ascii)
  : option pstate :=
  let n := Py.code c in
  if is_ws c then Some (mkP Between x stack)
  else match x with
       | XValue => start_value c x stack
       | XValueOrEnd =>
           if Nat.eqb n 93 then close_list stack else start_value c x stack
       | XKeyOrEnd =>
           if Nat.eqb n 125 then close_dict stack
           else if Nat.eqb n 34 then Some (mkP (InString EmptyString) x stack)
           else None
       | XKey =>
           if Nat.eqb n 34 then Some (mkP (InString EmptyString) x stack)
           else None
       | XColon => if Nat.eqb n 58 then Some (mkP Between XValue stack) else None
       | XSep =>
           if Nat.eqb n 44 then
             match stack with
             | FList _ :: _ => Some (mkP Between XValue stack)
             | FDict _ _ :: _ => Some (mkP Between XKey stack)
             | [] => None
             end
           else if Nat.eqb n 93 then close_list stack
           else if Nat.eqb n 125 then close_dict stack
           else None
       | XDone _ => None
       end.

(** The closing quote of a string: a key where a key is expected, a value
    elsewhere. *)
Definition end_string (s : string) (x : expect) (stack : list frame)
  : option pstate :=
  match x with
  | XKey | XKeyOrEnd =>
      match stack with
      | FDict done None :: up => Some (mkP Between XColon (FDict done (Some s) :: up))
      | _ => None
      end
  | _ => push_value (JStr s) stack
  end.

Definition unescape (c : ascii) : option ascii :=
  let n := Py.code c in
  if (Nat.eqb n 34 || Nat.eqb n 92 || Nat.eqb n 47)%bool then Some c
  else if Nat.eqb n 98 then Some (ascii_of_nat 8)
  else if Nat.eqb n 102 then Some (ascii_of_nat 12)
  else if Nat.eqb n 110 then Some (ascii_of_nat 10)
  else if Nat.eqb n 114 then Some (ascii_of_nat 13)
  else if Nat.eqb n 116 then Some (ascii_of_nat 9)
  else None.

Definition hex_number (digits : list nat) : nat :=
  fold_left (fun acc d => 16 * acc + d)%nat digits 0%nat.

Definition step_number (literal : string) (ns : numstate) (c : ascii)
  : option numstate :=
  let n := Py.code c in
  let dot := Nat.eqb n 46 in
  let e := (Nat.eqb n 101 || Nat.eqb n 69)%bool in
  match ns with
  | NSign => if Nat.eqb n 48 then Some NZero
             else if is_digit c then Some NInt else None
  | NZero => if dot then Some NDot else if e then Some NExp else None
  | NInt => if is_digit c then Some NInt
            else if dot then Some NDot else if e then Some NExp else None
  | NDot => if is_digit c then Some NFrac else None
  | NFrac => if is_digit c then Some NFrac else if e then Some NExp else None
  | NExp => if (Nat.eqb n 43 || Nat.eqb n 45)%bool then Some NExpSign
            else if is_digit c then Some NExpDigits else None
  | NExpSign => if is_digit c then Some NExpDigits else None
  | NExpDigits => if is_digit c then Some NExpDigits else None
  end.

(** One character of the text. *)
Definition step (st : pstate) (c : ascii) : option pstate :=
  let x := p_expect st in
  let stack := p_stack st in
  let n := Py.code c in
  match p_mode st with
  | Between => step_between x stack c
  | InString acc =>
      if Nat.eqb n 34 then end_string acc x stack
      else if Nat.eqb n 92 then Some (mkP (InEscape acc) x stack)
      else if Nat.ltb n 32 then None
      else Some (mkP (InString (acc ++ str1 c)) x stack)
  | InEscape acc =>
      if Nat.eqb n 117 then Some (mkP (InHex acc []) x stack)
      else match unescape c with
           | Some c' => Some (mkP (InString (acc ++ str1 c')) x stack)
           | None => None
           end
  | InHex acc digits =>
      match hex_value c with
      | Some d =>
          let digits' := (digits ++ [d])%list in
          if Nat.eqb (List.length digits') 4 then
            if Nat.ltb (hex_number digits') 256
            then Some (mkP (InString (acc ++ str1 (ascii_of_nat (hex_number digits'))))
                           x stack)
            else None
          else Some (mkP (InHex acc digits') x stack)
      | None => None
      end
  | InWord rest v =>
      match rest with
      | String c' r =>
          if Ascii.eqb c c' then
            match r with
            | EmptyString => push_value v stack
            | _ => Some (mkP (InWord r v) x stack)
            end
          else None
      | EmptyString => None
      end
  | InNumber literal ns =>
      match step_number literal ns c with
      | Some ns' => Some (mkP (InNumber (literal ++ str1 c) ns') x stack)
      | None =>
          match ns with
          | NSign =>
              if Nat.eqb n 73
              then Some (mkP (InWord "nfinity" (JFloat "-Infinity")) x stack)
              else None
          | _ =>
              match number_value literal ns with
              | Some v =>
                  match push_value v stack with
                  | Some st' => step_between (p_expect st') (p_stack st') c
                  | None => None
                  end
              | None => None
              end
          end
      end
  end.

Fixpoint run (st : pstate) (text : string) : option pstate :=
  match text with
  | EmptyString => Some st
  | String c r => match step st c with
                  | Some st' => run st' r
                  | None => None
                  end
  end.

(** The end of the text: the document must be complete. *)
Definition finish (st : pstate) : option json :=
  match p_mode st, p_expect st with
  | Between, XDone v => Some v
  | InNumber literal ns, _ =>
      match number_value literal ns with
      | Some v => match p_stack st with [] => Some v | _ => None end
      | None => None
      end
  | _, _ => None
  end.

(** The text read from the state [st] up to its end. *)
Definition run_to_end (st : pstate) (text : string) : option json :=
  match run st text with
  | Some st' => finish st'
  | None => None
  end.


Definition start : pstate := mkP Between XValue [].

(** [json.loads(text)]; [None] stands for [JSONDecodeError]. *)
Definition loads (text : string) : option json := run_to_end start text.






(** The character [c] cannot go on a number. *)
Definition ends_number (c : ascii) : bool :=
  let n := Py.code c in
  negb (is_digit c || Nat.eqb n 46 || Nat.eqb n 101 || Nat.eqb n 69).

Definition stops (rest : string) : Prop :=
  match rest with
  | EmptyString => True
  | String c _ => ends_number c = true
  end.


End Json.

(** ** [datetime.strptime(text, '%Y-%m-%d')] *)

Module Date.

Local Open Scope nat_scope.

Definition digit (c : ascii) : option nat :=
  if Json.is_digit c then Some (Py.code c - 48) else None.

Definition digit_in (lo hi : nat) (c : ascii) : option nat :=
  match digit c with
  | Some d => if (Nat.leb lo d && Nat.leb d hi)%bool then Some d else None
  | None => None
  end.

(** [%Y]: four digits. *)
Definition read_year (s : string) : option (nat * string) :=
  match s with
  | String a (String b (String c (String d r))) =>
      match digit a, digit b, digit c, digit d with
      | Some a', Some b', Some c', Some d' =>
          Some (1000 * a' + 100 * b' + 10 * c' + d', r)
      | _, _, _, _ => None
      end
  | _ => None
  end.

(** [%m]: 10 to 12, or 01 to 09, or one digit from 1 to 9; the first form that
    fits is taken. *)
Definition read_month (s : string) : option (nat * string) :=
  match s with
  | String a r =>
      let two :=
        match r with
        | String b r' =>
            match digit_in 1 1 a, digit_in 0 2 b with
            | Some _, Some b' => Some (10 + b', r')
            | _, _ =>
                match digit_in 0 0 a, digit_in 1 9 b with
                | Some _, Some b' => Some (b', r')
                | _, _ => None
                end
            end
        | EmptyString => None
        end in
      match two with
      | Some res => Some res
      | None => match digit_in 1 9 a with
                | Some a' => Some (a', r)
                | None => None
                end
      end
  | EmptyString => None
  end.

(** [%d]: 30 or 31, or 10 to 29, or 01 to 09, or one digit from 1 to 9, or a
    blank and one digit from 1 to 9; the first form that fits is taken. *)
Definition read_day (s : string) : option (nat * string) :=
  match s with
  | String a r =>
      let two :=
        match r with
        | String b r' =>
            match digit_in 3 3 a, digit_in 0 1 b with
            | Some _, Some b' => Some (30 + b', r')
            | _, _ =>
                match digit_in 1 2 a, digit b with
                | Some a', Some b' => Some (10 * a' + b', r')
                | _, _ =>
                    match digit_in 0 0 a, digit_in 1 9 b with
                    | Some _, Some b' => Some (b', r')
                    | _, _ => None
                    end
                end
            end
        | EmptyString => None
        end in
      match two with
      | Some res => Some res
      | None =>
          match digit_in 1 9 a with
          | Some a' => Some (a', r)
          | None =>
              match r with
              | String b r' =>
                  if Nat.eqb (Py.code a) 32 then
                    match digit_in 1 9 b with
                    | Some b' => Some (b', r')
                    | None => None
                    end
                  else None
              | EmptyString => None
              end
          end
      end
  | EmptyString => None
  end.

Definition is_leap (y : nat) : bool :=
  (Nat.eqb (y mod 4) 0 && (negb (Nat.eqb (y mod 100) 0) || Nat.eqb (y mod 400) 0))%bool.

Definition days_in_month (y m : nat) : nat :=
  match m with
  | 2 => if is_leap y then 29 else 28
  | 4 | 6 | 9 | 11 => 30
  | _ => 31
  end.

Definition expect_dash (s : string) : option string :=
  match s with
  | String c r => if Nat.eqb (Py.code c) 45 then Some r else None
  | EmptyString => None
  end.

(** The date [text] stands for; [None] stands for [ValueError]: the text does
    not match the format, text is left over, or the day is not in the
    calendar (years go from 1 to 9999). *)
Definition strptime (text : string) : option (nat * nat * nat) :=
  match read_year text with
  | Some (y, r1) =>
      match expect_dash r1 with
      | Some r2 =>
          match read_month r2 with
          | Some (m, r3) =>
              match expect_dash r3 with
              | Some r4 =>
                  match read_day r4 with
                  | Some (d, EmptyString) =>
                      if (Nat.leb 1 y && Nat.leb d (days_in_month y m))%bool
                      then Some (y, m, d) else None
                  | _ => None
                  end
              | None => None
              end
          | None => None
          end
      | None => None
      end
  | None => None
  end.

End Date.

(** ** [TodoTaskTool] (src/Claude/todoapp/todoapp.py) *)

Module TodoTaskTool.

Import Json.
Local Open Scope py_scope.

(** A task: the dictionary [add_task] builds, with its six keys. *)
Record task : Type := mkTask {
  id : Z;
  description : string;
  completed : bool;
  priority : string;
  due_date : option string;
  created_at : string
}.

Definition set_id (j : Z) (t : task) : task :=
  mkTask j (description t) (completed t) (priority t) (due_date t) (created_at t).

Definition set_completed (b : bool) (t : task) : task :=
  mkTask (id t) (description t) b (priority t) (due_date t) (created_at t).

Definition store : Type := state task.

(** The task as the Python object [json.dump] is given: a dictionary whose keys
    are in the order [add_task] wrote them. *)
Definition task_to_json (t : task) : json :=
  JDict [("id", JInt (id t));
         ("description", JStr (description t));
         ("completed", JBool (completed t));
         ("priority", JStr (priority t));
         ("due_date", match due_date t with Some d => JStr d | None => JNull end);
         ("created_at", JStr (created_at t))].

Definition tasks_to_json (ts : list task) : json := JList (map task_to_json ts).

Definition task_of_json (v : json) : option task :=
  match v with
  | JDict [("id", JInt i); ("description", JStr d); ("completed", JBool c);
           ("priority", JStr p); ("due_date", due); ("created_at", JStr s)] =>
      match due with
      | JNull => Some (mkTask i d c p None s)
      | JStr x => Some (mkTask i d c p (Some x) s)
      | _ => None
      end
  | _ => None
  end.

Fixpoint all_tasks_of_json (l : list json) : option (list task) :=
  match l with
  | [] => Some []
  | v :: r =>
      match task_of_json v, all_tasks_of_json r with
      | Some t, Some ts => Some (t :: ts)
      | _, _ => None
      end
  end.

(** The collection a loaded object stands for; [None] when it is not a list
    of dictionaries of the shape above. *)
Definition tasks_of_json (v : json) : option (list task) :=
  match v with
  | JList l => all_tasks_of_json l
  | _ => None
  end.

(** [json.load(f)] on the text of the file. *)
Definition json_load (text : string) : M store json :=
  match loads text with
  | Some v => ret v
  | None => raise JSONDecodeError
  end.

(** [load_tasks] (lines 17-32) *)
Definition load_tasks : M store json :=
  present <- path_exists ;;
  if negb present then ret (JList [])
  else
    try_except
      (text <- read_file ;; json_load text)
      [JSONDecodeError; IOError]
      (name <- get_filename ;;
       print ("Error reading " ++ name ++ ". Starting with an empty task list.") ;;;
       ret (JList [])).

(** [save_tasks] (lines 34-42) *)
Definition save_tasks : M store unit :=
  try_except
    (open_w ;;;
     ts <- get_tasks ;;
     write (dumps (tasks_to_json ts)))
    [IOError]
    (name <- get_filename ;;
     print ("Error saving tasks to " ++ name)).

(** [__init__] (lines 7-15): the store made for [name] on the file [d].  The
    object [load_tasks] returns becomes [self.tasks] as it is; the model
    follows the stores whose object is a list of tasks, and gives [None] for
    the others. *)
Definition init (name : string) (d : file) : option store :=
  match load_tasks (mkState name [] d []) with
  | Returned v s =>
      match tasks_of_json v with
      | Some ts => Some (mkState name ts (disk s) (stdout s))
      | None => None
      end
  | Raised _ _ => None
  end.

(** The truth value of an optional text: [None] and the empty text are
    false. *)
Definition truthy (x : option string) : bool :=
  match x with
  | Some EmptyString | None => false
  | Some _ => true
  end.

(** The validation of the due date (lines 61-67). *)
Definition check_due_date (due : option string) : M store (option string) :=
  match due with
  | Some text =>
      if truthy due then
        match Date.strptime text with
        | Some _ => ret due
        | None =>
            print "Invalid date format. Use YYYY-MM-DD. No due date set." ;;;
            ret None
        end
      else ret due
  | None => ret due
  end.

(** [add_task] (lines 44-80).  [now] is the text of
    [datetime.now().strftime('%Y-%m-%d %H:%M:%S')] at the call. *)
Definition add_task (description priority : string) (due : option string)
  (now : string) : M store task :=
  let priority := Py.lower priority in
  let priority :=
    if negb (Py.str_in priority ["low"; "medium"; "high"]) then "medium"
    else priority in
  due <- check_due_date due ;;
  ts <- get_tasks ;;
  let task := mkTask (Py.len ts + 1) description false priority due now in
  set_tasks (ts ++ [task]) ;;;
  save_tasks ;;;
  ret task.

(** The values of [filter_type]. *)
Definition filter_type : Type := option string.

(** [list_tasks] (lines 82-96) *)
Definition list_tasks (f : filter_type) : M store (list task) :=
  ts <- get_tasks ;;
  match f with
  | Some "completed" => ret (filter (fun t => completed t) ts)
  | Some "pending" => ret (filter (fun t => negb (completed t)) ts)
  | _ => ret ts
  end.

(** The loop of [mark_task_complete]: the first task whose id is [task_id] is
    marked; [None] when the loop ends without meeting one. *)
Fixpoint complete_first (task_id : Z) (ts : list task) : option (list task) :=
  match ts with
  | [] => None
  | t :: r =>
      if id t =? task_id then Some (set_completed true t :: r)
      else match complete_first task_id r with
           | Some r' => Some (t :: r')
           | None => None
           end
  end.

Definition not_found (task_id : Z) : string :=
  "Task with ID " ++ Py.str_of_int task_id ++ " not found.".

(** [mark_task_complete] (lines 98-114) *)
Definition mark_task_complete (task_id : Z) : M store bool :=
  ts <- get_tasks ;;
  match complete_first task_id ts with
  | Some ts' => set_tasks ts' ;;; save_tasks ;;; ret true
  | None => print (not_found task_id) ;;; ret false
  end.

(** The index [i] at which the loop of [remove_task] meets [task_id]. *)
Fixpoint find_index (task_id : Z) (ts : list task) : option nat :=
  match ts with
  | [] => None
  | t :: r =>
      if id t =? task_id then Some O
      else match find_index task_id r with
           | Some i => Some (S i)
           | None => None
           end
  end.

(** [del l[i]] *)
Definition delete_at {A : Type} (i : nat) (l : list A) : list A :=
  firstn i l ++ skipn (S i) l.

(** [for j, t in enumerate(self.tasks, j): t['id'] = j] *)
Fixpoint reindex (j : Z) (ts : list task) : list task :=
  match ts with
  | [] => []
  | t :: r => set_id j t :: reindex (j + 1) r
  end.

(** [remove_task] (lines 116-135) *)
Definition remove_task (task_id : Z) : M store bool :=
  ts <- get_tasks ;;
  match find_index task_id ts with
  | Some i =>
      set_tasks (delete_at i ts) ;;;
      ts' <- get_tasks ;;
      set_tasks (reindex 1 ts') ;;;
      save_tasks ;;;
      ret true
  | None => print (not_found task_id) ;;; ret false
  end.

(** The calls a user of the store can make, and a run of them. *)
Inductive call : Type :=
| Add (description priority : string) (due : option string) (now : string)
| List (f : filter_type)
| Complete (task_id : Z)
| Remove (task_id : Z).

Definition perform (c : call) (s : store) : store :=
  match c with
  | Add d p due now => final (add_task d p due now s)
  | List f => final (list_tasks f s)
  | Complete i => final (mark_task_complete i s)
  | Remove i => final (remove_task i s)
  end.

Definition perform_all (cs : list call) (s : store) : store :=
  fold_left (fun st c => perform c st) cs s.

End TodoTaskTool.

(** ** [TodoApp] (src/Perplexity/todoapp.py) *)

Module TodoApp.

Local Open Scope py_scope.

(** A task is a Python list of texts: [[description, status]] when [add_task]
    made it, the fields of a line when [load_tasks] read it. *)
Definition task : Type := list string.

Definition store : Type := state task.

Definition BAR : ascii := ascii_of_nat 124.

(** [l[i]]; raises [IndexError] out of range. *)
Definition item {A : Type} (l : list A) (i : nat) : M store A :=
  match nth_error l i with
  | Some x => ret x
  | None => raise IndexError
  end.

(** [l[i] = x] as a new list; [None] stands for [IndexError]. *)
Fixpoint set_item {A : Type} (l : list A) (i : nat) (x : A) : option (list A) :=
  match l, i with
  | [], _ => None
  | _ :: r, O => Some (x :: r)
  | y :: r, S k => match set_item r k x with
                   | Some r' => Some (y :: r')
                   | None => None
                   end
  end.

Definition parse_line (line : string) : task := Py.split BAR (Py.strip line).

(** [load_tasks] (lines 10-13) *)
Definition load_tasks : M store unit :=
  present <- path_exists ;;
  if present then
    text <- read_file ;;
    set_tasks (map parse_line (Py.readlines text))
  else ret tt.

Definition line_of (d s : string) : string :=
  d ++ String BAR s ++ String Py.LF EmptyString.

(** The loop of [save_tasks] over the tasks that are left to write. *)
Fixpoint write_lines (ts : list task) : M store unit :=
  match ts with
  | [] => ret tt
  | t :: r =>
      d <- item t 0 ;;
      s <- item t 1 ;;
      write (line_of d s) ;;;
      write_lines r
  end.

(** [save_tasks] (lines 15-18) *)
Definition save_tasks : M store unit :=
  open_w ;;;
  ts <- get_tasks ;;
  write_lines ts.

(** [__init__] (lines 5-8) on the file [d]. *)
Definition init (d : file) : outcome store unit :=
  load_tasks (mkState "tasks.txt" [] d []).

(** [add_task] (lines 20-23) *)
Definition add_task (description : string) : M store unit :=
  ts <- get_tasks ;;
  set_tasks (ts ++ [[description; "Pending"]]) ;;;
  save_tasks ;;;
  print ("Task '" ++ description ++ "' added successfully.").

Definition in_range (task_index : Z) (ts : list task) : bool :=
  ((1 <=? task_index) && (task_index <=? Py.len ts))%bool.

(** [mark_complete] (lines 32-38) *)
Definition mark_complete (task_index : Z) : M store unit :=
  ts <- get_tasks ;;
  if in_range task_index ts then
    let i := Z.to_nat (task_index - 1) in
    t <- item ts i ;;
    match set_item t 1 "Completed" with
    | Some t' =>
        match set_item ts i t' with
        | Some ts' =>
            set_tasks ts' ;;;
            save_tasks ;;;
            d <- item t' 0 ;;
            print ("Task '" ++ d ++ "' marked as completed.")
        | None => raise IndexError
        end
    | None => raise IndexError
    end
  else print "Invalid task number.".

(** [remove_task] (lines 40-46) *)
Definition remove_task (task_index : Z) : M store unit :=
  ts <- get_tasks ;;
  if in_range task_index ts then
    let i := Z.to_nat (task_index - 1) in
    removed <- item ts i ;;
    set_tasks (TodoTaskTool.delete_at i ts) ;;;
    save_tasks ;;;
    d <- item removed 0 ;;
    print ("Task '" ++ d ++ "' removed successfully.")
  else print "Invalid task number.".

(** A loaded entry can stand for a task when it has the two fields the
    program reads, [task[0]] and [task[1]]. *)
Definition has_both_fields (t : task) : bool := Nat.leb 2 (List.length t).

(** The loop of [view_tasks] over the tasks that are left to print, [i] being
    the number of the first of them. *)
Fixpoint print_tasks (i : Z) (ts : list task) : M store unit :=
  match ts with
  | [] => ret tt
  | t :: r =>
      d <- item t 0 ;;
      s <- item t 1 ;;
      print (Py.str_of_int i ++ ". " ++ d ++ " - " ++ s) ;;;
      print_tasks (i + 1) r
  end.

(** [view_tasks] (lines 25-30) *)
Definition view_tasks : M store unit :=
  ts <- get_tasks ;;
  match ts with
  | [] => print "No tasks found."
  | _ => print_tasks 1 ts
  end.

(** The calls a user of the store can make, and a run of them; a call that
    raises leaves the state it had reached. *)
Inductive call : Type :=
| Add (description : string)
| View
| Complete (task_index : Z)
| Remove (task_index : Z).

Definition run_call (c : call) : M store unit :=
  match c with
  | Add d => add_task d
  | View => view_tasks
  | Complete i => mark_complete i
  | Remove i => remove_task i
  end.

Definition perform (c : call) (s : store) : store := final (run_call c s).

Definition perform_all (cs : list call) (s : store) : store :=
  fold_left (fun st c => perform c st) cs s.







End TodoApp.

(** ** Notions the properties are stated with *)

(** [l1] is [l2] with some items left out, the others in their order. *)
Inductive Subseq {A : Type} : list A -> list A -> Prop :=
| Subseq_nil : Subseq [] []
| Subseq_skip : forall x l1 l2, Subseq l1 l2 -> Subseq l1 (x :: l2)
| Subseq_keep : forall x l1 l2, Subseq l1 l2 -> Subseq (x :: l1) (x :: l2).

(** The integers [a], [a+1], ..., [a+n-1]. *)
Fixpoint count_from (a : Z) (n : nat) : list Z :=
  match n with
  | O => []
  | S k => a :: count_from (a + 1) k
  end.

(** The ids of a collection are 1, 2, ..., N in this order. *)
Definition dense_ids (ts : list TodoTaskTool.task) : Prop :=
  map TodoTaskTool.id ts = count_from 1 (List.length ts).

(** A task without its id: what a renumbering leaves as it is. *)
Definition body (t : TodoTaskTool.task) : TodoTaskTool.task :=
  TodoTaskTool.set_id 0 t.


(** What [save_tasks] of [TodoTaskTool] leaves: the document of the collection
    in the file, or, when the file cannot be written, a printed line. *)
Definition saved (s : TodoTaskTool.store) : TodoTaskTool.store :=
  if writable (disk s)
  then set_content (Json.dumps (TodoTaskTool.tasks_to_json (tasks s))) s
  else mkState (filename s) (tasks s) (disk s)
               (stdout s ++ [("Error saving tasks to " ++ filename s)%string]).

(** The due dates [add_task] throws away: the texts that are not empty and
    that [strptime] refuses. *)
Definition rejected_date (due : option string) : bool :=
  match due with
  | Some text =>
      (TodoTaskTool.truthy due
       && match Date.strptime text with Some _ => false | None => true end)%bool
  | None => false
  end.

Fixpoint all_chars (p : ascii -> bool) (s : string) : bool :=
  match s with
  | EmptyString => true
  | String c r => (p c && all_chars p r)%bool
  end.

Definition is_bar (c : ascii) : bool := Ascii.eqb c TodoApp.BAR.

Definition is_line_end (c : ascii) : bool :=
  (Ascii.eqb c Py.LF || Ascii.eqb c Py.CR)%bool.

(** A text that can be written on one line of the text store and read back:
    no bar and no line end in it. *)
Definition plain (s : string) : bool :=
  all_chars (fun c => negb (is_bar c || is_line_end c)) s.

Definition starts_with_space (s : string) : bool :=
  match s with
  | String c _ => Py.isspace c
  | EmptyString => false
  end.

Fixpoint ends_with_space (s : string) : bool :=
  match s with
  | EmptyString => false
  | String c EmptyString => Py.isspace c
  | String _ r => ends_with_space r
  end.

(** A task of the text store that [save_tasks] writes on a line from which
    [load_tasks] reads it back: a description and a status, both plain, with
    no white space before the description or after the status. *)
Definition line_safe (t : TodoApp.task) : bool :=
  match t with
  | [d; s] => (plain d && plain s && negb (starts_with_space d)
               && negb (ends_with_space s))%bool
  | _ => false
  end.

(** The text [save_tasks] of [TodoApp] writes for tasks of two fields. *)
Fixpoint lines_text (ts : list TodoApp.task) : string :=
  match ts with
  | [] => EmptyString
  | [d; s] :: r => (TodoApp.line_of d s ++ lines_text r)%string
  | _ :: r => lines_text r
  end.

(** Two stores used as examples: the collection of the scenario of the
    specification, and an empty text store. *)
Definition no_file : file := mkFile None true true.


Definition two_tasks : TodoTaskTool.store :=
  final (TodoTaskTool.add_task "Call Bob" "high" (Some "2024-01-01")
           "2024-01-01 09:00:01"
           (final (TodoTaskTool.add_task "Buy milk" "medium" None
                     "2024-01-01 09:00:00"
                     (mkState "tasks.json" [] no_file [])))).

Definition empty_app : TodoApp.store := mkState "tasks.txt" [] no_file [].

(** Code that leaves [self.tasks] as it is, however it ends. *)
Definition keeps_tasks {A : Type} (m : M TodoApp.store A) : Prop :=
  forall s, tasks (final (m s)) = tasks s.


Definition saving_error (name : string) : string :=
  ("Error saving tasks to " ++ name)%string.

Definition date_warning : string :=
  "Invalid date format. Use YYYY-MM-DD. No due date set.".


Definition garbage_file : file := mkFile (Some "garbage") true true.



(** The priority [add_task] stores for the argument [p]. *)
Definition normal_priority (p : string) : string :=
  if Py.str_in (Py.lower p) ["low"; "medium"; "high"] then Py.lower p else "medium".

(** [bob_only]: the scenario's store after the first task was removed;
    [milk_app]: the text store after one task was added; [fresh_tool]: the
    state in which [TodoTaskTool] is made on a path without file;
    [broken_file]: a file whose text is not a JSON document. *)
Definition bob_only : TodoTaskTool.store :=
  final (TodoTaskTool.remove_task 1 two_tasks).

Definition milk_app : TodoApp.store :=
  final (TodoApp.add_task "Buy milk" empty_app).



(** ** Notions for the further properties *)


(** The same for the text store. *)
Definition in_step_text (s : TodoApp.store) : Prop :=
  match content (disk s) with
  | Some text => text = lines_text (tasks s)
  | None => tasks s = []
  end.

(** [t'] is [t], possibly completed in between: the other fields are equal
    and a completed task stays so. *)
Definition advances (t t' : TodoTaskTool.task) : Prop :=
  TodoTaskTool.set_completed true t = TodoTaskTool.set_completed true t'
  /\ (TodoTaskTool.completed t = true -> TodoTaskTool.completed t' = true).

(** [ts'] is [ts] with tasks that advanced, followed by new tasks. *)
Definition extends (ts ts' : list TodoTaskTool.task) : Prop :=
  exists kept added, ts' = (kept ++ added)%list /\ Forall2 advances ts kept.

Definition is_remove (c : TodoTaskTool.call) : bool :=
  match c with TodoTaskTool.Remove _ => true | _ => false end.

(** The fields of a task are those [add_task] lets in: a priority among the
    three, and a due date that is [None], empty or a date for [strptime]. *)
Definition valid_fields (t : TodoTaskTool.task) : Prop :=
  Py.str_in (TodoTaskTool.priority t) ["low"; "medium"; "high"] = true
  /\ rejected_date (TodoTaskTool.due_date t) = false.

(** An entry of the text store as its own operations make them. *)
Definition made_by_app (t : TodoApp.task) : Prop :=
  exists d st, t = [d; st] /\ (st = "Pending" \/ st = "Completed").

(** The lines [save_tasks] of [TodoApp] writes for entries that have both
    fields, whatever else they hold. *)
Fixpoint written_lines (ts : list TodoApp.task) : string :=
  match ts with
  | [] => EmptyString
  | (d :: st :: _) :: r => (TodoApp.line_of d st ++ written_lines r)%string
  | _ :: r => written_lines r
  end.

(** The lines [view_tasks] prints for entries that have both fields, [i]
    being the number of the first. *)
Fixpoint numbered_lines (i : Z) (ts : list TodoApp.task) : list string :=
  match ts with
  | [] => []
  | (d :: st :: _) :: r =>
      (Py.str_of_int i ++ ". " ++ d ++ " - " ++ st)%string
      :: numbered_lines (i + 1) r
  | _ :: r => numbered_lines (i + 1) r
  end.

(** A call of the text store whose new description, if any, can be written
    on a line and read back. *)
Definition safe_call (c : TodoApp.call) : bool :=
  match c with
  | TodoApp.Add d => line_safe [d; "Pending"]
  | _ => true
  end.

(** The state [s] after the lines [out] were printed. *)
Definition printed (out : list string) (s : TodoApp.store) : TodoApp.store :=
  mkState (filename s) (tasks s) (disk s) (stdout s ++ out).

(** What a call of the text store makes of the collection, when it changes
    it. *)
Definition follows (c : TodoApp.call) (ts ts' : list TodoApp.task) : Prop :=
  match c with
  | TodoApp.Add d => ts' = (ts ++ [[d; "Pending"]])%list
  | TodoApp.View => False
  | TodoApp.Complete i =>
      exists before d st extra after,
        ts = (before ++ (d :: st :: extra) :: after)%list
        /\ Z.of_nat (List.length before) = i - 1
        /\ ts' = (before ++ (d :: "Completed" :: extra) :: after)%list
  | TodoApp.Remove i =>
      exists before t after,
        ts = (before ++ t :: after)%list
        /\ Z.of_nat (List.length before) = i - 1
        /\ ts' = (before ++ after)%list
  end.

(** The state a call leaves when it has changed the collection to [ts'] and
    written the file, [out] being what it printed. *)
Definition written (ts' : list TodoApp.task) (out : list string)
  (s : TodoApp.store) : TodoApp.store :=
  printed out
    (set_content (written_lines ts')
       (mkState (filename s) ts' (disk s) (stdout s))).



(** [garbage_app]: the text store made on [garbage_file]. *)
Definition garbage_app : TodoApp.store := final (TodoApp.init garbage_file).


(** * Proofs *)

Local Open Scope list_scope.

(** ** Reading back what [json.dumps] wrote *)

Section JsonRoundTrip.
Import Json.

Lemma str_app_assoc : forall a b c : string, ((a ++ b) ++ c = a ++ (b ++ c))%string.
Proof. induction a as [|x a IH]; intros b c; cbn; [reflexivity|]. now rewrite IH. Qed.

Lemma str_app_nil_r : forall a : string, (a ++ "")%string = a.
Proof. induction a as [|x a IH]; cbn; [reflexivity|]. now rewrite IH. Qed.




(** *** Strings *)






(** *** Numbers *)
















(** *** Words, white space, containers *)






Lemma existsb_app_false : forall k (a b : list string),
  existsb (String.eqb k) a = false -> existsb (String.eqb k) b = false ->
  existsb (String.eqb k) (a ++ b) = false.
Proof. intros k a b Ha Hb. rewrite existsb_app, Ha, Hb. reflexivity. Qed.








Lemma stops_comma : forall rest, stops (String "," rest).
Proof. reflexivity. Qed.

Lemma stops_newline : forall n rest, stops (newline_indent n ++ rest).
Proof. reflexivity. Qed.







End JsonRoundTrip.

(** ** [TodoTaskTool] *)

Section TodoTaskToolFacts.
Import TodoTaskTool.


Lemma save_tasks_returns : forall s, save_tasks s = Returned tt (saved s).
Proof.
  intros [name ts [c r w] out]. unfold save_tasks, saved, try_except, bind, open_w.
  cbn. destruct w; reflexivity.
Qed.

Lemma tasks_saved : forall s, tasks (saved s) = tasks s.
Proof. intros s. unfold saved. destruct (writable (disk s)); reflexivity. Qed.

Lemma filename_saved : forall s, filename (saved s) = filename s.
Proof. intros s. unfold saved. destruct (writable (disk s)); reflexivity. Qed.

Lemma check_due_date_returns : forall due s,
  exists due' out, check_due_date due s = Returned due' (mkState (filename s) (tasks s) (disk s) out).
Proof.
  intros due [name ts d out]. unfold check_due_date.
  destruct due as [text|]; [|eexists; eexists; reflexivity].
  destruct (truthy (Some text)); [|eexists; eexists; reflexivity].
  destruct (Date.strptime text); eexists; eexists; reflexivity.
Qed.

Lemma add_task_returns : forall d p due now s,
  exists t s1,
    add_task d p due now s = Returned t (saved s1)
    /\ tasks s1 = tasks s ++ [t] /\ disk s1 = disk s /\ filename s1 = filename s
    /\ id t = Py.len (tasks s) + 1 /\ description t = d /\ completed t = false
    /\ created_at t = now.
Proof.
  intros d p due now s. unfold add_task.
  destruct (check_due_date_returns due s) as (due' & out & E).
  unfold bind at 1. rewrite E. cbn.
  unfold bind. cbn. rewrite save_tasks_returns.
  eexists. eexists. split; [reflexivity|]. cbn. repeat split; reflexivity.
Qed.

Lemma mark_task_complete_found : forall tid s ts',
  complete_first tid (tasks s) = Some ts' ->
  mark_task_complete tid s
  = Returned true (saved (mkState (filename s) ts' (disk s) (stdout s))).
Proof.
  intros tid s ts' E. unfold mark_task_complete, bind, get_tasks.
  rewrite E. cbn. rewrite save_tasks_returns. reflexivity.
Qed.

Lemma mark_task_complete_missing : forall tid s,
  complete_first tid (tasks s) = None ->
  mark_task_complete tid s
  = Returned false (mkState (filename s) (tasks s) (disk s)
                            (stdout s ++ [not_found tid])).
Proof.
  intros tid s E. unfold mark_task_complete, bind, get_tasks.
  rewrite E. reflexivity.
Qed.

Lemma remove_task_found : forall tid s i,
  find_index tid (tasks s) = Some i ->
  remove_task tid s
  = Returned true
      (saved (mkState (filename s) (reindex 1 (delete_at i (tasks s)))
                      (disk s) (stdout s))).
Proof.
  intros tid s i E. unfold remove_task, bind, get_tasks.
  rewrite E. cbn. rewrite save_tasks_returns. reflexivity.
Qed.

Lemma remove_task_missing : forall tid s,
  find_index tid (tasks s) = None ->
  remove_task tid s
  = Returned false (mkState (filename s) (tasks s) (disk s)
                            (stdout s ++ [not_found tid])).
Proof.
  intros tid s E. unfold remove_task, bind, get_tasks.
  rewrite E. reflexivity.
Qed.

(** The two loops meet a task exactly when its id is in the collection. *)
Lemma complete_first_none : forall tid ts,
  ~ In tid (map id ts) -> complete_first tid ts = None.
Proof.
  induction ts as [|t r IH]; intros H; cbn in *; [reflexivity|].
  destruct (Z.eqb_spec (id t) tid) as [E|N]; [tauto|].
  rewrite IH; tauto.
Qed.

Lemma find_index_none : forall tid ts,
  ~ In tid (map id ts) -> find_index tid ts = None.
Proof.
  induction ts as [|t r IH]; intros H; cbn in *; [reflexivity|].
  destruct (Z.eqb_spec (id t) tid) as [E|N]; [tauto|].
  rewrite IH; tauto.
Qed.

Lemma complete_first_split : forall tid ts ts',
  complete_first tid ts = Some ts' ->
  exists before t after,
    ts = before ++ t :: after /\ id t = tid
    /\ (forall u, In u before -> id u <> tid)
    /\ ts' = before ++ set_completed true t :: after.
Proof.
  induction ts as [|t r IH]; intros ts' H; cbn in H; [discriminate|].
  destruct (Z.eqb_spec (id t) tid) as [E|N].
  - injection H as <-. exists [], t, r. cbn. intuition.
  - destruct (complete_first tid r) as [r'|] eqn:Er; [|discriminate].
    injection H as <-.
    destruct (IH r' eq_refl) as (b & u & a & -> & Hu & Hb & ->).
    exists (t :: b), u, a. cbn. repeat split; auto.
    intros v [<-|Hv]; auto.
Qed.

Lemma find_index_split : forall tid ts i,
  find_index tid ts = Some i ->
  exists before t after,
    ts = before ++ t :: after /\ id t = tid
    /\ (forall u, In u before -> id u <> tid)
    /\ List.length before = i /\ delete_at i ts = before ++ after.
Proof.
  induction ts as [|t r IH]; intros i H; cbn in H; [discriminate|].
  destruct (Z.eqb_spec (id t) tid) as [E|N].
  - injection H as <-. exists [], t, r. cbn. intuition.
  - destruct (find_index tid r) as [k|] eqn:Er; [|discriminate].
    injection H as <-.
    destruct (IH k eq_refl) as (b & u & a & -> & Hu & Hb & Hl & Hd).
    exists (t :: b), u, a. cbn. repeat split; auto.
    + intros v [<-|Hv]; auto.
    + unfold delete_at in *. cbn. f_equal. exact Hd.
Qed.

Lemma complete_first_again : forall tid ts ts',
  complete_first tid ts = Some ts' -> complete_first tid ts' = Some ts'.
Proof.
  induction ts as [|t r IH]; intros ts' H; cbn in H; [discriminate|].
  destruct (Z.eqb_spec (id t) tid) as [E|N].
  - injection H as <-. cbn. rewrite E, Z.eqb_refl. reflexivity.
  - destruct (complete_first tid r) as [r'|] eqn:Er; [|discriminate].
    injection H as <-. cbn.
    destruct (Z.eqb_spec (id t) tid); [contradiction|].
    rewrite (IH r' eq_refl). reflexivity.
Qed.

Lemma ids_reindex : forall ts j, map id (reindex j ts) = count_from j (List.length ts).
Proof.
  induction ts as [|t r IH]; intros j; cbn; [reflexivity|].
  rewrite IH. reflexivity.
Qed.

Lemma bodies_reindex : forall ts j, map body (reindex j ts) = map body ts.
Proof.
  induction ts as [|t r IH]; intros j; cbn; [reflexivity|].
  rewrite IH. reflexivity.
Qed.

Lemma length_reindex : forall ts j, List.length (reindex j ts) = List.length ts.
Proof.
  induction ts as [|t r IH]; intros j; cbn; [reflexivity|]. now rewrite IH.
Qed.

Lemma complete_first_ids : forall tid ts ts',
  complete_first tid ts = Some ts' -> map id ts' = map id ts /\ List.length ts' = List.length ts.
Proof.
  intros tid ts ts' H.
  destruct (complete_first_split _ _ _ H) as (b & t & a & -> & _ & _ & ->).
  rewrite !map_app, !length_app. cbn. auto.
Qed.

Lemma count_from_app : forall n m a,
  count_from a (n + m) = count_from a n ++ count_from (a + Z.of_nat n) m.
Proof.
  induction n as [|n IH]; intros m a; cbn [count_from Nat.add app].
  - f_equal. cbn. lia.
  - rewrite IH. do 3 f_equal. lia.
Qed.

Lemma dense_ids_add : forall ts t,
  dense_ids ts -> id t = Py.len ts + 1 -> dense_ids (ts ++ [t]).
Proof.
  unfold dense_ids, Py.len. intros ts t H E.
  rewrite map_app, length_app, count_from_app, H. cbn [map count_from].
  rewrite E, (Z.add_comm 1). reflexivity.
Qed.

(** Every call keeps the ids dense. *)
Lemma perform_dense : forall c s,
  dense_ids (tasks s) -> dense_ids (tasks (perform c s)).
Proof.
  intros c s H. destruct c as [d p due now|f|tid|tid]; cbn [perform].
  - destruct (add_task_returns d p due now s) as (t & s1 & E & Ht & _ & _ & Hid & _).
    rewrite E. cbn. rewrite tasks_saved, Ht. apply dense_ids_add; assumption.
  - unfold list_tasks, bind, get_tasks.
    destruct f as [f|]; [|exact H].
    repeat (match goal with |- context [match ?x with _ => _ end] => destruct x end;
            try exact H).
  - destruct (complete_first tid (tasks s)) as [ts'|] eqn:E.
    + rewrite (mark_task_complete_found _ _ _ E). cbn. rewrite tasks_saved. cbn.
      destruct (complete_first_ids _ _ _ E) as [Hi Hl].
      unfold dense_ids. rewrite Hi, Hl. exact H.
    + rewrite (mark_task_complete_missing _ _ E). exact H.
  - destruct (find_index tid (tasks s)) as [i|] eqn:E.
    + rewrite (remove_task_found _ _ _ E). cbn. rewrite tasks_saved. cbn.
      unfold dense_ids. rewrite ids_reindex, length_reindex. reflexivity.
    + rewrite (remove_task_missing _ _ E). exact H.
Qed.

Lemma perform_all_dense : forall cs s,
  dense_ids (tasks s) -> dense_ids (tasks (perform_all cs s)).
Proof.
  induction cs as [|c cs IH]; intros s H; cbn; [exact H|].
  apply IH, perform_dense, H.
Qed.


Lemma filter_Subseq : forall (A : Type) (f : A -> bool) l, Subseq (filter f l) l.
Proof.
  induction l as [|x l IH]; cbn; [constructor|].
  destruct (f x); constructor; exact IH.
Qed.

Lemma filter_split_Permutation : forall (A : Type) (f : A -> bool) l,
  Permutation (filter (fun x => negb (f x)) l ++ filter f l) l.
Proof.
  induction l as [|x l IH]; cbn; [constructor|].
  destruct (f x); cbn.
  - apply Permutation_sym, Permutation_cons_app, Permutation_sym, IH.
  - constructor. exact IH.
Qed.

Lemma disk_saved_again : forall s name out,
  disk (saved (mkState name (tasks (saved s)) (disk (saved s)) out))
  = disk (saved s).
Proof.
  intros [n ts [c r w] o] name out. unfold saved. cbn. destruct w; reflexivity.
Qed.

(** C5.  For every state of the collection and every description, [add_task]
    returns a task whose id is the size of the collection before the call
    plus one, which is not completed, and which it has put at the end of the
    collection; so after a removal that succeeded on a collection of N tasks
    the next task added gets the id N. *)
Theorem add_task_appends_with_next_id :
  (forall d p due now s,
     exists t s',
       add_task d p due now s = Returned t s'
       /\ id t = Py.len (tasks s) + 1
       /\ tasks s' = tasks s ++ [t]
       /\ completed t = false /\ description t = d)
  /\ (forall tid s s1,
        remove_task tid s = Returned true s1 ->
        forall d p due now,
        exists t s2,
          add_task d p due now s1 = Returned t s2 /\ id t = Py.len (tasks s)).
Proof.
  split.
  - intros d p due now s.
    destruct (add_task_returns d p due now s) as (t & s1 & E & Ht & _ & _ & Hid & Hd & Hc & _).
    exists t, (saved s1). rewrite tasks_saved. auto.
  - intros tid s s1 H d p due now.
    destruct (find_index tid (tasks s)) as [i|] eqn:E.
    + rewrite (remove_task_found _ _ _ E) in H. injection H as <-.
      destruct (add_task_returns d p due now
                  (saved (mkState (filename s) (reindex 1 (delete_at i (tasks s)))
                                  (disk s) (stdout s))))
        as (t & s2 & E2 & _ & _ & _ & Hid & _).
      exists t, (saved s2). split; [exact E2|].
      rewrite Hid, tasks_saved. cbn [tasks]. unfold Py.len.
      rewrite length_reindex.
      destruct (find_index_split _ _ _ E) as (b & u & a & Hs & _ & _ & _ & Hd).
      rewrite Hd, Hs, !length_app. cbn [List.length]. lia.
    + rewrite (remove_task_missing _ _ E) in H. discriminate.
Qed.

(** C4.  When no task of the collection has the id, [mark_task_complete] and
    [remove_task] both return [False] without raising, and leave the
    collection (and the file) as they were. *)
Theorem unknown_id_changes_nothing : forall tid s,
  ~ In tid (map id (tasks s)) ->
  (exists s1, mark_task_complete tid s = Returned false s1
              /\ tasks s1 = tasks s /\ disk s1 = disk s)
  /\ (exists s1, remove_task tid s = Returned false s1
                 /\ tasks s1 = tasks s /\ disk s1 = disk s).
Proof.
  intros tid s H. split.
  - rewrite (mark_task_complete_missing _ _ (complete_first_none _ _ H)).
    eexists. split; [reflexivity|]. auto.
  - rewrite (remove_task_missing _ _ (find_index_none _ _ H)).
    eexists. split; [reflexivity|]. auto.
Qed.

(** C8.  In every state, [list_tasks('pending')] returns the tasks that are
    not completed and [list_tasks('completed')] those that are, both in the
    order of the collection; together they are the tasks [list_tasks()]
    returns, no task is in both, and none of the three calls changes the
    state (tasks, file or console). *)
Theorem list_tasks_partitions : forall s,
  let pending := filter (fun t => negb (completed t)) (tasks s) in
  let done := filter (fun t => completed t) (tasks s) in
  list_tasks (Some "pending") s = Returned pending s
  /\ list_tasks (Some "completed") s = Returned done s
  /\ list_tasks None s = Returned (tasks s) s
  /\ Permutation (pending ++ done) (tasks s)
  /\ (forall t, In t pending -> In t done -> False)
  /\ (forall t, In t pending <-> In t (tasks s) /\ completed t = false)
  /\ (forall t, In t done <-> In t (tasks s) /\ completed t = true)
  /\ Subseq pending (tasks s) /\ Subseq done (tasks s).
Proof.
  intros s pending done. subst pending done.
  repeat split; try reflexivity.
  - apply filter_split_Permutation.
  - intros t H1 H2. apply filter_In in H1, H2.
    destruct H1 as [_ H1], H2 as [_ H2]. rewrite H2 in H1. discriminate.
  - apply filter_In in H. tauto.
  - apply filter_In in H. destruct H as [_ H]. now apply negb_true_iff in H.
  - intros [H1 H2]. apply filter_In. split; [exact H1|]. now rewrite H2.
  - apply filter_In in H. tauto.
  - apply filter_In in H. tauto.
  - intros [H1 H2]. apply filter_In. tauto.
  - apply filter_Subseq.
  - apply filter_Subseq.
Qed.

(** C9.  Calling [mark_task_complete] a second time with the same id returns
    what the first call returned and leaves the collection and the file as
    the first call left them. *)
Theorem mark_task_complete_twice : forall tid s,
  exists b s1 s2,
    mark_task_complete tid s = Returned b s1
    /\ mark_task_complete tid s1 = Returned b s2
    /\ tasks s2 = tasks s1 /\ disk s2 = disk s1.
Proof.
  intros tid s. destruct (complete_first tid (tasks s)) as [ts'|] eqn:E.
  - rewrite (mark_task_complete_found _ _ _ E).
    set (s1 := saved _).
    assert (E1 : complete_first tid (tasks s1) = Some ts').
    { subst s1. rewrite tasks_saved. cbn. eapply complete_first_again, E. }
    exists true, s1, (saved (mkState (filename s1) ts' (disk s1) (stdout s1))).
    split; [reflexivity|]. split; [apply mark_task_complete_found, E1|].
    rewrite tasks_saved. cbn [tasks]. split.
    + subst s1. rewrite tasks_saved. reflexivity.
    + subst s1.
      replace ts' with (tasks (saved (mkState (filename s) ts' (disk s) (stdout s)))) at 2
        by (rewrite tasks_saved; reflexivity).
      apply disk_saved_again.
  - rewrite (mark_task_complete_missing _ _ E).
    set (s1 := mkState _ _ _ _).
    exists false, s1, (mkState (filename s1) (tasks s1) (disk s1) (stdout s1 ++ [not_found tid])).
    split; [reflexivity|]. split; [apply mark_task_complete_missing; exact E|].
    auto.
Qed.

(** C1.  When [remove_task] succeeds on a collection of N tasks, the N-1
    tasks that are left are the other tasks in their order, changed in their
    id only, and their ids are 1, 2, ..., N-1.  Every call of the store keeps
    the ids of the collection equal to 1, 2, ..., N, N being the number of
    tasks, and so they are after any calls on a store that started empty. *)
Theorem remove_task_renumbers :
  (forall tid s s',
     remove_task tid s = Returned true s' ->
     exists before t after,
       tasks s = before ++ t :: after /\ id t = tid
       /\ map body (tasks s') = map body (before ++ after)
       /\ S (List.length (tasks s')) = List.length (tasks s)
       /\ map id (tasks s') = count_from 1 (List.length (tasks s')))
  /\ (forall c s, dense_ids (tasks s) -> dense_ids (tasks (perform c s)))
  /\ (forall cs name d out, dense_ids (tasks (perform_all cs (mkState name [] d out)))).
Proof.
  split; [|split].
  - intros tid s s' H.
    destruct (find_index tid (tasks s)) as [i|] eqn:E.
    + rewrite (remove_task_found _ _ _ E) in H. injection H as <-.
      destruct (find_index_split _ _ _ E) as (b & u & a & Hs & Hu & _ & _ & Hd).
      exists b, u, a. rewrite tasks_saved. cbn [tasks].
      rewrite bodies_reindex, ids_reindex, length_reindex, Hd.
      repeat split; auto.
      rewrite Hs, !length_app. cbn. lia.
    + rewrite (remove_task_missing _ _ E) in H. discriminate.
  - exact perform_dense.
  - intros cs name d out. apply perform_all_dense. reflexivity.
Qed.

End TodoTaskToolFacts.

(** ** [TodoApp] *)

Section TodoAppFacts.
Import TodoApp.


Lemma keeps_bind : forall (A B : Type) (m : M store A) (k : A -> M store B),
  keeps_tasks m -> (forall a, keeps_tasks (k a)) -> keeps_tasks (bind m k).
Proof.
  intros A B m k Hm Hk s. unfold bind. specialize (Hm s).
  destruct (m s) as [a s'|e s']; cbn in *; [|exact Hm].
  rewrite Hk. exact Hm.
Qed.

Lemma keeps_item : forall (A : Type) (l : list A) i, keeps_tasks (item l i).
Proof. intros A l i s. unfold item. destruct (nth_error l i); reflexivity. Qed.

Lemma keeps_write : forall text, keeps_tasks (write text).
Proof.
  intros text s. unfold write. destruct (content (disk s)); reflexivity.
Qed.

Lemma keeps_print : forall msg, keeps_tasks (print msg).
Proof. intros msg s. reflexivity. Qed.

Lemma keeps_open_w : keeps_tasks (@open_w task).
Proof. intros s. unfold open_w. destruct (writable (disk s)); reflexivity. Qed.

Lemma keeps_write_lines : forall ts, keeps_tasks (write_lines ts).
Proof.
  induction ts as [|t r IH]; cbn [write_lines]; [intros s; reflexivity|].
  apply keeps_bind; [apply keeps_item|]. intros d.
  apply keeps_bind; [apply keeps_item|]. intros st.
  apply keeps_bind; [apply keeps_write|]. intros _. exact IH.
Qed.

Lemma keeps_save_tasks : keeps_tasks save_tasks.
Proof.
  unfold save_tasks. apply keeps_bind; [apply keeps_open_w|]. intros _.
  apply keeps_bind; [intros s; reflexivity|]. intros ts. apply keeps_write_lines.
Qed.

Lemma set_item_middle : forall (A : Type) (before : list A) t after x,
  set_item (before ++ t :: after) (List.length before) x = Some (before ++ x :: after).
Proof.
  induction before as [|y b IH]; intros t after x; cbn; [reflexivity|].
  rewrite IH. reflexivity.
Qed.

Lemma nth_error_middle : forall (A : Type) (before : list A) t after,
  nth_error (before ++ t :: after) (List.length before) = Some t.
Proof.
  induction before as [|y b IH]; intros t after; cbn; [reflexivity|]. apply IH.
Qed.

Lemma in_range_split : forall i (ts : list task),
  in_range i ts = true ->
  exists before t after,
    ts = before ++ t :: after /\ List.length before = Z.to_nat (i - 1).
Proof.
  intros i ts H. unfold in_range, Py.len in H.
  apply andb_true_iff in H. destruct H as [H1 H2].
  apply Z.leb_le in H1, H2.
  destruct (nth_error ts (Z.to_nat (i - 1))) as [t|] eqn:E.
  - apply nth_error_split in E. destruct E as (b & a & -> & Hl).
    exists b, t, a. auto.
  - apply nth_error_None in E. lia.
Qed.

Lemma run_bind : forall (S A B : Type) (m : M S A) (k : A -> M S B) s a s',
  m s = Returned a s' -> bind m k s = k a s'.
Proof. intros S A B m k s a s' E. unfold bind. rewrite E. reflexivity. Qed.

Lemma run_bind_raised : forall (S A B : Type) (m : M S A) (k : A -> M S B) s e s',
  m s = Raised e s' -> bind m k s = Raised e s'.
Proof. intros S A B m k s e s' E. unfold bind. rewrite E. reflexivity. Qed.

Lemma item_middle : forall (A : Type) (before : list A) t after (s : store),
  item (before ++ t :: after) (List.length before) s = Returned t s.
Proof. intros. unfold item. rewrite nth_error_middle. reflexivity. Qed.

(** What [mark_complete] does to the collection when the number is one of a
    task: the status of this task is replaced, or, when the entry has no
    second field, [IndexError] is raised before anything has changed. *)
Lemma mark_complete_in_range : forall i s,
  in_range i (tasks s) = true ->
  exists before t after,
    tasks s = before ++ t :: after
    /\ Z.of_nat (List.length before) = i - 1
    /\ match t with
       | d :: st :: extra =>
           tasks (final (mark_complete i s))
           = before ++ (d :: "Completed" :: extra) :: after
       | _ => mark_complete i s = Raised IndexError s
       end.
Proof.
  intros i s H.
  destruct (in_range_split _ _ H) as (b & t & a & Hs & Hl).
  exists b, t, a. split; [exact Hs|]. split.
  { unfold in_range in H. apply andb_true_iff in H. destruct H as [H _].
    apply Z.leb_le in H. lia. }
  unfold mark_complete.
  rewrite (run_bind _ _ _ get_tasks _ s (tasks s) s eq_refl), H.
  cbv zeta. rewrite <- Hl, Hs.
  rewrite (run_bind _ _ _ _ _ _ _ _ (item_middle _ b t a s)).
  destruct t as [|d [|st extra]]; try reflexivity.
  cbn [set_item]. rewrite set_item_middle.
  rewrite (run_bind _ _ _ (set_tasks _) _ s tt _ eq_refl).
  match goal with |- tasks (final (?m ?s1)) = _ =>
    assert (K : keeps_tasks m); [|rewrite K; reflexivity] end.
  apply keeps_bind; [apply keeps_save_tasks|]. intros _.
  apply keeps_bind; [apply keeps_item|]. intros x. apply keeps_print.
Qed.

Lemma add_task_unwritable : forall d s,
  writable (disk s) = false ->
  add_task d s
  = Raised IOError (mkState (filename s) (tasks s ++ [[d; "Pending"]]) (disk s) (stdout s)).
Proof.
  intros d s H. unfold add_task.
  rewrite (run_bind _ _ _ get_tasks _ s (tasks s) s eq_refl).
  rewrite (run_bind _ _ _ (set_tasks _) _ s tt _ eq_refl).
  apply run_bind_raised. unfold save_tasks. apply run_bind_raised.
  unfold open_w. cbn. rewrite H. reflexivity.
Qed.

Lemma load_tasks_missing : forall s,
  content (disk s) = None -> load_tasks s = Returned tt s.
Proof.
  intros s H. unfold load_tasks, bind, path_exists. rewrite H. reflexivity.
Qed.

Lemma load_tasks_present : forall s text,
  content (disk s) = Some text -> readable (disk s) = true ->
  load_tasks s
  = Returned tt (mkState (filename s) (map parse_line (Py.readlines text))
                         (disk s) (stdout s)).
Proof.
  intros [n ts [c r w] o] text H R. cbn in H, R. subst c r. reflexivity.
Qed.


Lemma all_chars_app : forall p a b,
  all_chars p (a ++ b)%string = (all_chars p a && all_chars p b)%bool.
Proof.
  induction a as [|x a IH]; intros b; cbn; [reflexivity|].
  rewrite IH. apply andb_assoc.
Qed.

Lemma all_chars_weaken : forall (p q : ascii -> bool) s,
  (forall c, p c = true -> q c = true) -> all_chars p s = true -> all_chars q s = true.
Proof.
  intros p q s Hpq. induction s as [|c s IH]; cbn; [reflexivity|].
  intros H. apply andb_true_iff in H. destruct H as [H1 H2].
  rewrite (Hpq _ H1), (IH H2). reflexivity.
Qed.

Lemma plain_no_bar : forall s,
  plain s = true -> all_chars (fun c => negb (is_bar c)) s = true.
Proof.
  intros s. apply all_chars_weaken. intros c H.
  apply negb_true_iff, orb_false_iff in H. destruct H as [H _]. now rewrite H.
Qed.

Lemma plain_no_line_end : forall s,
  plain s = true -> all_chars (fun c => negb (is_line_end c)) s = true.
Proof.
  intros s. apply all_chars_weaken. intros c H.
  apply negb_true_iff, orb_false_iff in H. destruct H as [_ H]. now rewrite H.
Qed.

(** Reading lines: a text without line end, followed by a line feed, is one
    line. *)
Lemma readlines_from_line : forall p cur rest,
  all_chars (fun c => negb (is_line_end c)) p = true ->
  Py.readlines_from cur (p ++ String Py.LF rest)
  = (cur ++ p ++ String Py.LF "")%string :: Py.readlines_from "" rest.
Proof.
  induction p as [|c p IH]; intros cur rest H.
  - cbn. reflexivity.
  - cbn [all_chars] in H. apply andb_true_iff in H. destruct H as [Hc Hp].
    unfold is_line_end in Hc. apply negb_true_iff, orb_false_iff in Hc.
    destruct Hc as [H1 H2].
    cbn [append Py.readlines_from]. rewrite H1, H2, (IH _ _ Hp).
    rewrite str_app_assoc. reflexivity.
Qed.

Lemma split_no_bar : forall s,
  all_chars (fun c => negb (is_bar c)) s = true -> Py.split BAR s = [s].
Proof.
  induction s as [|c s IH]; cbn [all_chars Py.split]; [reflexivity|].
  intros H. apply andb_true_iff in H. destruct H as [Hc Hs].
  unfold is_bar in Hc. apply negb_true_iff in Hc. rewrite Hc, (IH Hs). reflexivity.
Qed.

Lemma split_at_bar : forall d r,
  all_chars (fun c => negb (is_bar c)) d = true ->
  Py.split BAR (d ++ String BAR r) = d :: Py.split BAR r.
Proof.
  induction d as [|c d IH]; intros r H.
  - cbn. reflexivity.
  - cbn [all_chars] in H. apply andb_true_iff in H. destruct H as [Hc Hd].
    unfold is_bar in Hc. apply negb_true_iff in Hc.
    cbn [append Py.split]. rewrite Hc, (IH _ Hd). reflexivity.
Qed.

Lemma lstrip_fixed : forall s, starts_with_space s = false -> Py.lstrip s = s.
Proof. intros [|c s] H; cbn in *; [reflexivity|]. now rewrite H. Qed.

Lemma rstrip_cons : forall c r,
  Py.rstrip (String c r)
  = match Py.rstrip r with
    | EmptyString => if Py.isspace c then EmptyString else String c EmptyString
    | r' => String c r'
    end.
Proof. reflexivity. Qed.

Lemma rstrip_fixed : forall s, ends_with_space s = false -> Py.rstrip s = s.
Proof.
  induction s as [|c s IH]; intros H; [reflexivity|].
  rewrite rstrip_cons. destruct s as [|c' s'].
  - cbn in *. now rewrite H.
  - change (ends_with_space (String c' s') = false) in H.
    rewrite (IH H). reflexivity.
Qed.

Lemma rstrip_space_end : forall s c,
  Py.isspace c = true -> Py.rstrip (s ++ String c "") = Py.rstrip s.
Proof.
  induction s as [|a s IH]; intros c H; cbn [append].
  - cbn. now rewrite H.
  - rewrite !rstrip_cons, (IH _ H). reflexivity.
Qed.

Lemma ends_with_space_app : forall a c s,
  ends_with_space (a ++ String c s) = ends_with_space (String c s).
Proof.
  induction a as [|x a IH]; intros c s; [reflexivity|].
  cbn [append]. rewrite <- (IH c s).
  destruct a; reflexivity.
Qed.

Lemma starts_with_space_app : forall a c s,
  starts_with_space (a ++ String c s)
  = match a with EmptyString => Py.isspace c | _ => starts_with_space a end.
Proof. intros [|x a] c s; reflexivity. Qed.

(** A line [save_tasks] wrote for a safe task is read back as the task. *)
Lemma parse_line_of : forall d s,
  line_safe [d; s] = true -> parse_line (line_of d s) = [d; s].
Proof.
  intros d s H. unfold line_safe in H.
  repeat (apply andb_true_iff in H; destruct H as [H ?]).
  apply negb_true_iff in H0, H1.
  unfold parse_line, line_of, Py.strip.
  assert (E : (d ++ String BAR s ++ String Py.LF "")%string
              = ((d ++ String BAR s) ++ String Py.LF "")%string).
  { rewrite str_app_assoc. reflexivity. }
  rewrite lstrip_fixed.
  - rewrite E, rstrip_space_end by reflexivity.
    rewrite rstrip_fixed.
    + rewrite split_at_bar by (apply plain_no_bar; assumption).
      rewrite split_no_bar by (apply plain_no_bar; assumption). reflexivity.
    + rewrite ends_with_space_app. destruct s as [|c s]; [reflexivity|exact H0].
  - cbn [append]. rewrite starts_with_space_app.
    destruct d; [reflexivity|exact H1].
Qed.

Lemma line_safe_shape : forall t,
  line_safe t = true -> exists d s, t = [d; s].
Proof.
  intros [|d [|s [|x r]]] H; try discriminate. eauto.
Qed.

Lemma readlines_lines_text : forall ts,
  forallb line_safe ts = true ->
  map parse_line (Py.readlines (lines_text ts)) = ts.
Proof.
  unfold Py.readlines.
  induction ts as [|t r IH]; intros H; [reflexivity|].
  cbn in H. apply andb_true_iff in H. destruct H as [Ht Hr].
  destruct (line_safe_shape _ Ht) as (d & s & ->).
  cbn [lines_text]. unfold line_of at 1.
  replace ((d ++ String BAR s ++ String Py.LF "") ++ lines_text r)%string
    with ((d ++ String BAR s) ++ String Py.LF (lines_text r))%string.
  - rewrite readlines_from_line.
    + cbn [map]. rewrite (IH Hr). f_equal.
      change ("" ++ (d ++ String BAR s) ++ String Py.LF "")%string
        with ((d ++ String BAR s) ++ String Py.LF "")%string.
      rewrite str_app_assoc. apply parse_line_of, Ht.
    + unfold line_safe in Ht.
      repeat (apply andb_true_iff in Ht; destruct Ht as [Ht ?]).
      rewrite all_chars_app. cbn.
      rewrite (plain_no_line_end _ Ht), (plain_no_line_end _ H1). reflexivity.
  - rewrite !str_app_assoc. reflexivity.
Qed.

Lemma set_content_twice : forall (T : Type) a b (s : state T),
  set_content b (set_content a s) = set_content b s.
Proof. intros T a b [n ts [c r w] o]. reflexivity. Qed.



End TodoAppFacts.

(** ** Saving and loading the JSON store *)

Section Persistence.
Import Json.










End Persistence.

(** ** The claims on both stores *)

Section StoreClaims.
Import TodoTaskTool.

Lemma stdout_saved : forall s : store,
  stdout (saved s)
  = stdout s ++ (if writable (disk s) then [] else [saving_error (filename s)]).
Proof.
  intros s. unfold saved. destruct (writable (disk s)); cbn; [|reflexivity].
  now rewrite List.app_nil_r.
Qed.



(** [add_task], step by step. *)
Lemma add_task_spec : forall d p due now s,
  let t := mkTask (Py.len (tasks s) + 1) d false (normal_priority p)
                  (if rejected_date due then None else due) now in
  add_task d p due now s
  = Returned t
      (saved (mkState (filename s) (tasks s ++ [t]) (disk s)
                      (stdout s ++ if rejected_date due then [date_warning] else []))).
Proof.
  intros d p due now s t. subst t. unfold add_task, normal_priority.
  destruct (Py.str_in (Py.lower p) ["low"; "medium"; "high"]); cbn [negb];
    (destruct due as [[|c text]|];
     [ | destruct (Date.strptime (String c text)) eqn:E | ];
     unfold check_due_date, rejected_date, truthy; rewrite ?E; unfold bind;
     cbn [ret get_tasks set_tasks print tasks filename disk stdout andb];
     rewrite save_tasks_returns, ?List.app_nil_r; destruct s; reflexivity).
Qed.


Lemma rejected_date_iff : forall text,
  rejected_date (Some text) = true <-> text <> "" /\ Date.strptime text = None.
Proof.
  intros text. unfold rejected_date, truthy. split.
  - destruct text; [discriminate|]. destruct (Date.strptime _); [discriminate|].
    intros _. split; [discriminate|reflexivity].
  - intros [N E]. rewrite E. destruct text; [contradiction|reflexivity].
Qed.

(** C6, as amended.  [add_task] always creates the task.  The priority is put
    in lower case and kept when it is low, medium or high, and is medium
    otherwise.  A due date that is a text, not empty, that [strptime] refuses
    for the format [%Y-%m-%d] is replaced by [None] and one warning is
    printed; any other due date, the empty text among them, is stored as it
    was given and no warning is printed for it. *)
Theorem add_task_normalises : forall d p due now s,
  exists t s',
    add_task d p due now s = Returned t s'
    /\ priority t
       = (if Py.str_in (Py.lower p) ["low"; "medium"; "high"]
          then Py.lower p else "medium")
    /\ due_date t = (if rejected_date due then None else due)
    /\ stdout s'
       = stdout s ++ (if rejected_date due then [date_warning] else [])
         ++ (if writable (disk s) then [] else [saving_error (filename s)])
    /\ rejected_date None = false
    /\ rejected_date (Some "") = false
    /\ (forall text, rejected_date (Some text) = true
                     <-> text <> "" /\ Date.strptime text = None).
Proof.
  intros d p due now s. eexists. eexists. split; [apply add_task_spec|].
  rewrite stdout_saved. cbn [stdout disk filename priority due_date].
  rewrite <- List.app_assoc.
  split; [reflexivity|]. split; [reflexivity|]. split; [reflexivity|].
  split; [reflexivity|]. split; [reflexivity|]. exact rejected_date_iff.
Qed.

(** C6, counterexample.  The empty text is not a date for [strptime], and
    [add_task] given it as due date stores it and prints nothing: the due
    date is not made absent and there is no warning. *)
Lemma empty_due_date_is_kept :
  Date.strptime "" = None
  /\ exists t s',
       add_task "Write report" "medium" (Some "") "2024-01-02 09:00:00" two_tasks
       = Returned t s'
       /\ due_date t = Some "" /\ stdout s' = [].
Proof.
  split; [reflexivity|]. eexists. eexists.
  split; [vm_compute; reflexivity|]. split; reflexivity.
Qed.

(** C10.  When [mark_task_complete] finds a task with the id, the collection
    it leaves is the one it found with this task, the first of that id,
    marked completed: its other five fields, the other tasks, the length and
    the order are as they were.  In the text store, [mark_complete] with the
    number of a task replaces its status field by [Completed] and nothing
    else; an entry without status field is left alone, [IndexError] being
    raised. *)
Theorem mark_complete_changes_one_field :
  (forall tid s s',
     mark_task_complete tid s = Returned true s' ->
     exists before t after,
       tasks s = before ++ t :: after
       /\ id t = tid
       /\ (forall u, In u before -> id u <> tid)
       /\ tasks s' = before ++ set_completed true t :: after
       /\ id (set_completed true t) = id t
       /\ description (set_completed true t) = description t
       /\ priority (set_completed true t) = priority t
       /\ due_date (set_completed true t) = due_date t
       /\ created_at (set_completed true t) = created_at t
       /\ completed (set_completed true t) = true)
  /\ (forall i (s : TodoApp.store),
        TodoApp.in_range i (tasks s) = true ->
        exists before t after,
          tasks s = before ++ t :: after
          /\ Z.of_nat (List.length before) = i - 1
          /\ match t with
             | d :: st :: extra =>
                 tasks (final (TodoApp.mark_complete i s))
                 = before ++ (d :: "Completed" :: extra) :: after
             | _ => TodoApp.mark_complete i s = Raised IndexError s
             end).
Proof.
  split.
  - intros tid s s' H.
    destruct (complete_first tid (tasks s)) as [ts'|] eqn:E.
    + rewrite (mark_task_complete_found _ _ _ E) in H. injection H as <-.
      destruct (complete_first_split _ _ _ E) as (b & t & a & Hs & Hi & Hb & Hr).
      exists b, t, a. rewrite tasks_saved. cbn [tasks]. repeat split; auto.
    + rewrite (mark_task_complete_missing _ _ E) in H. discriminate.
  - exact mark_complete_in_range.
Qed.





End StoreClaims.

(** ** When the file cannot be written *)

Section WriteFailure.
Import TodoTaskTool.

Lemma remove_task_unwritable : forall i (s : TodoApp.store),
  writable (disk s) = false -> TodoApp.in_range i (tasks s) = true ->
  TodoApp.remove_task i s
  = Raised IOError
      (mkState (filename s) (delete_at (Z.to_nat (i - 1)) (tasks s))
               (disk s) (stdout s)).
Proof.
  intros i s W H. destruct (in_range_split _ _ H) as (b & t & a & Hs & Hl).
  unfold TodoApp.remove_task.
  rewrite (run_bind _ _ _ get_tasks _ s (tasks s) s eq_refl), H. cbv zeta.
  rewrite <- Hl, Hs.
  rewrite (run_bind _ _ _ _ _ _ _ _ (item_middle _ b t a s)).
  rewrite (run_bind _ _ _ (set_tasks _) _ s tt _ eq_refl).
  apply run_bind_raised. unfold TodoApp.save_tasks. apply run_bind_raised.
  unfold open_w. cbn. rewrite W. reflexivity.
Qed.

Lemma mark_complete_unwritable : forall i (s : TodoApp.store) before d st extra after,
  writable (disk s) = false ->
  tasks s = before ++ (d :: st :: extra) :: after ->
  Z.of_nat (List.length before) = i - 1 ->
  TodoApp.mark_complete i s
  = Raised IOError
      (mkState (filename s) (before ++ (d :: "Completed" :: extra) :: after)
               (disk s) (stdout s)).
Proof.
  intros i s b d st extra a W Hs Hl.
  assert (R : TodoApp.in_range i (tasks s) = true).
  { unfold TodoApp.in_range, Py.len. rewrite Hs, length_app. cbn [List.length].
    apply andb_true_iff. split; apply Z.leb_le; lia. }
  assert (Hn : Z.to_nat (i - 1) = List.length b) by lia.
  unfold TodoApp.mark_complete.
  rewrite (run_bind _ _ _ get_tasks _ s (tasks s) s eq_refl), R. cbv zeta.
  rewrite Hn, Hs.
  rewrite (run_bind _ _ _ _ _ _ _ _ (item_middle _ b _ a s)).
  cbn [TodoApp.set_item]. rewrite set_item_middle.
  rewrite (run_bind _ _ _ (set_tasks _) _ s tt _ eq_refl).
  apply run_bind_raised. unfold TodoApp.save_tasks. apply run_bind_raised.
  unfold open_w. cbn. rewrite W. reflexivity.
Qed.





End WriteFailure.

(** ** Instances *)

Section Witnesses.
Import TodoTaskTool.

(** C1, an instance: the first of the two tasks of the scenario is removed; the
    task that is left has the id 1, and adding a task keeps the ids dense. *)
Lemma remove_task_renumbers_witness :
  remove_task 1 two_tasks = Returned true bob_only
  /\ map id (tasks bob_only) = [1]
  /\ map description (tasks bob_only) = ["Call Bob"]
  /\ dense_ids (tasks two_tasks)
  /\ dense_ids (tasks (perform (Add "Write report" "low" None "2024-01-02 09:00:00")
                               two_tasks)).
Proof.
  assert (R : remove_task 1 two_tasks = Returned true bob_only) by reflexivity.
  assert (D : dense_ids (tasks two_tasks)) by reflexivity.
  destruct (proj1 remove_task_renumbers 1 two_tasks bob_only R)
    as (b & t & a & _ & _ & _ & _ & H).
  split; [exact R|]. split; [exact H|]. split; [reflexivity|].
  split; [exact D|].
  exact (proj1 (proj2 remove_task_renumbers) _ two_tasks D).
Defined.

(** C4, an instance: the id 99 on the collection of two tasks. *)
Lemma unknown_id_changes_nothing_witness :
  ~ In 99 (map id (tasks two_tasks))
  /\ (exists s1, mark_task_complete 99 two_tasks = Returned false s1
                 /\ tasks s1 = tasks two_tasks /\ disk s1 = disk two_tasks)
  /\ (exists s1, remove_task 99 two_tasks = Returned false s1
                 /\ tasks s1 = tasks two_tasks /\ disk s1 = disk two_tasks).
Proof.
  assert (H : ~ In 99 (map id (tasks two_tasks))).
  { cbn. intros [H|[H|[]]]; discriminate. }
  split; [exact H|]. exact (unknown_id_changes_nothing 99 two_tasks H).
Defined.

(** C5, an instance: after the first of two tasks was removed, the task added
    next has the id 2. *)
Lemma add_task_appends_with_next_id_witness :
  remove_task 1 two_tasks = Returned true bob_only
  /\ exists t s2,
       add_task "Write report" "medium" None "2024-01-02 09:00:00" bob_only
       = Returned t s2
       /\ id t = 2.
Proof.
  assert (R : remove_task 1 two_tasks = Returned true bob_only) by reflexivity.
  split; [exact R|].
  exact (proj2 add_task_appends_with_next_id 1 two_tasks bob_only R
           "Write report" "medium" None "2024-01-02 09:00:00").
Defined.




(** C10, an instance: the second of two tasks is marked in the JSON store, the
    only task in the text store. *)
Lemma mark_complete_changes_one_field_witness :
  (exists s', mark_task_complete 2 two_tasks = Returned true s'
              /\ map completed (tasks s') = [false; true]
              /\ map description (tasks s') = ["Buy milk"; "Call Bob"])
  /\ TodoApp.in_range 1 (tasks milk_app) = true
  /\ tasks (final (TodoApp.mark_complete 1 milk_app)) = [["Buy milk"; "Completed"]].
Proof.
  destruct mark_complete_changes_one_field as (H1 & H2).
  split.
  - destruct (H1 2 two_tasks (final (mark_task_complete 2 two_tasks)) eq_refl)
      as (b & t & a & _).
    exists (final (mark_task_complete 2 two_tasks)).
    split; [reflexivity|]. split; reflexivity.
  - split; [reflexivity|].
    destruct (H2 1 milk_app eq_refl) as (b & t & a & _). reflexivity.
Defined.

End Witnesses.

(** ** Further properties of [TodoTaskTool] *)

Section TodoTaskToolMore.
Import TodoTaskTool.


Lemma list_tasks_final : forall f s, final (list_tasks f s) = s.
Proof.
  intros f s. unfold list_tasks, bind, get_tasks.
  destruct f as [f|]; [|reflexivity].
  repeat (match goal with |- context [match ?x with _ => _ end] => destruct x end;
          try reflexivity).
Qed.








Lemma set_id_same : forall t, set_id (id t) t = t.
Proof. intros []. reflexivity. Qed.

Lemma reindex_app : forall a b j,
  reindex j (a ++ b) = reindex j a ++ reindex (j + Py.len a) b.
Proof.
  induction a as [|t a IH]; intros b j; cbn [app reindex].
  - f_equal. unfold Py.len. cbn. lia.
  - rewrite IH. do 3 f_equal. unfold Py.len. cbn [List.length]. lia.
Qed.

Lemma reindex_same : forall ts j,
  map id ts = count_from j (List.length ts) -> reindex j ts = ts.
Proof.
  induction ts as [|t r IH]; intros j H; [reflexivity|].
  cbn in H. injection H as H1 H2. cbn [reindex].
  rewrite (IH _ H2), <- H1, set_id_same. reflexivity.
Qed.

Lemma reindex_shift : forall ts j,
  map id ts = count_from (j + 1) (List.length ts) ->
  reindex j ts = map (fun u => set_id (id u - 1) u) ts.
Proof.
  induction ts as [|t r IH]; intros j H; [reflexivity|].
  cbn in H. injection H as H1 H2. cbn [reindex map].
  rewrite (IH _ H2). f_equal. f_equal. lia.
Qed.

(** Where the two loops stop, on any collection. *)
Lemma loops_stop_at : forall tid ts i,
  find_index tid ts = Some i ->
  exists before t after,
    ts = before ++ t :: after /\ List.length before = i /\ id t = tid
    /\ complete_first tid ts = Some (before ++ set_completed true t :: after)
    /\ delete_at i ts = before ++ after.
Proof.
  induction ts as [|t r IH]; intros i H; cbn in H; [discriminate|].
  destruct (Z.eqb_spec (id t) tid) as [E|N].
  - injection H as <-. exists [], t, r. cbn.
    destruct (Z.eqb_spec (id t) tid); [auto|contradiction].
  - destruct (find_index tid r) as [k|] eqn:Er; [|discriminate].
    injection H as <-.
    destruct (IH k eq_refl) as (b & u & a & -> & Hl & Hu & Hc & Hd).
    exists (t :: b), u, a. cbn [app List.length complete_first].
    destruct (Z.eqb_spec (id t) tid); [contradiction|].
    rewrite Hc. repeat split; auto.
    unfold delete_at in *. cbn. f_equal. exact Hd.
Qed.

Lemma loops_miss_together : forall tid ts,
  find_index tid ts = None -> complete_first tid ts = None.
Proof.
  induction ts as [|t r IH]; intros H; cbn in *; [reflexivity|].
  destruct (id t =? tid); [discriminate|].
  destruct (find_index tid r); [discriminate|]. now rewrite IH.
Qed.

(** On ids [a], [a+1], ... the id [tid] is met at the place [tid - a]. *)
Lemma find_index_counted : forall ts a tid,
  map id ts = count_from a (List.length ts) ->
  find_index tid ts
  = if ((a <=? tid) && (tid <? a + Py.len ts))%bool
    then Some (Z.to_nat (tid - a)) else None.
Proof.
  induction ts as [|t r IH]; intros a tid H.
  - cbn. unfold Py.len. cbn.
    destruct (a <=? tid) eqn:E1; destruct (tid <? a + 0) eqn:E2; try reflexivity.
    apply Z.leb_le in E1. apply Z.ltb_lt in E2. lia.
  - cbn in H. injection H as H1 H2. cbn [find_index].
    rewrite (IH _ tid H2). rewrite H1. unfold Py.len. cbn [List.length].
    destruct (Z.eqb_spec a tid) as [E|N].
    + subst tid.
      replace (a <=? a) with true by (symmetry; apply Z.leb_le; lia).
      replace (a <? a + Z.of_nat (S (List.length r))) with true
        by (symmetry; apply Z.ltb_lt; lia).
      cbn. now rewrite Z.sub_diag.
    + destruct (a + 1 <=? tid) eqn:E1; destruct (a <=? tid) eqn:E0;
        destruct (tid <? a + 1 + Z.of_nat (List.length r)) eqn:E2;
        destruct (tid <? a + Z.of_nat (S (List.length r))) eqn:E3;
        cbn [andb];
        try apply Z.leb_le in E1; try apply Z.leb_gt in E1;
        try apply Z.leb_le in E0; try apply Z.leb_gt in E0;
        try apply Z.ltb_lt in E2; try apply Z.ltb_ge in E2;
        try apply Z.ltb_lt in E3; try apply Z.ltb_ge in E3;
        try lia; try reflexivity.
      f_equal. lia.
Qed.

Lemma length_count_from : forall n a, List.length (count_from a n) = n.
Proof. induction n as [|n IH]; intros a; cbn; [reflexivity|]. now rewrite IH. Qed.

Lemma app_same_length : forall (A : Type) (a c b d : list A),
  List.length a = List.length c -> a ++ b = c ++ d -> a = c /\ b = d.
Proof.
  induction a as [|x a IH]; intros [|y c] b d L H; cbn in *; try discriminate.
  - auto.
  - injection H as -> H. injection L as L.
    destruct (IH c b d L H) as [-> ->]. auto.
Qed.

Lemma count_from_split : forall n m a,
  count_from a (n + S m)
  = count_from a n ++ (a + Z.of_nat n) :: count_from (a + Z.of_nat n + 1) m.
Proof. intros n m a. rewrite count_from_app. reflexivity. Qed.

(** X2.  On a collection whose ids are 1, 2, ..., N, [mark_task_complete] and
    [remove_task] find an id exactly when it is between 1 and N.  They then
    act on the task at the place of that number: the one marks it; the other
    takes it out, leaves the tasks before it as they are and lowers the id of
    each task after it by one. *)
Theorem dense_ids_are_positions : forall tid s,
  dense_ids (tasks s) ->
  (1 <= tid <= Py.len (tasks s) ->
   exists before t after,
     tasks s = before ++ t :: after
     /\ Z.of_nat (List.length before) = tid - 1
     /\ (exists s1, mark_task_complete tid s = Returned true s1
                    /\ tasks s1 = before ++ set_completed true t :: after)
     /\ (exists s2, remove_task tid s = Returned true s2
                    /\ tasks s2
                       = before ++ map (fun u => set_id (id u - 1) u) after))
  /\ (~ (1 <= tid <= Py.len (tasks s)) ->
      (exists s1, mark_task_complete tid s = Returned false s1)
      /\ (exists s2, remove_task tid s = Returned false s2)).
Proof.
  intros tid s D. pose proof (find_index_counted (tasks s) 1 tid D) as F.
  split.
  - intros R.
    replace ((1 <=? tid) && (tid <? 1 + Py.len (tasks s)))%bool with true in F
      by (symmetry; apply andb_true_iff; split;
          [apply Z.leb_le|apply Z.ltb_lt]; lia).
    destruct (loops_stop_at _ _ _ F) as (b & t & a & Hs & Hl & Ht & Hc & Hd).
    exists b, t, a. split; [exact Hs|]. split; [lia|]. split.
    + rewrite (mark_task_complete_found _ _ _ Hc). eexists. split; [reflexivity|].
      now rewrite tasks_saved.
    + rewrite (remove_task_found _ _ _ F). eexists. split; [reflexivity|].
      rewrite tasks_saved. cbn [tasks]. rewrite Hd, reindex_app.
      unfold dense_ids in D. rewrite Hs, map_app, length_app in D.
      cbn [map List.length] in D. rewrite count_from_split in D.
      apply app_same_length in D;
        [|now rewrite length_map, length_count_from].
      destruct D as (D1 & D2). injection D2 as D2 D3.
      f_equal.
      * apply reindex_same. exact D1.
      * apply reindex_shift. unfold Py.len. rewrite D3. f_equal; lia.
  - intros R.
    replace ((1 <=? tid) && (tid <? 1 + Py.len (tasks s)))%bool with false in F.
    + rewrite (mark_task_complete_missing _ _ (loops_miss_together _ _ F)).
      rewrite (remove_task_missing _ _ F). eauto.
    + symmetry. apply andb_false_iff.
      destruct (Z.leb_spec 1 tid); [right|left; reflexivity].
      apply Z.ltb_ge. lia.
Qed.


Lemma advances_refl : forall t, advances t t.
Proof. intros t. split; auto. Qed.

Lemma advances_trans : forall a b c, advances a b -> advances b c -> advances a c.
Proof.
  intros a b c [H1 H2] [H3 H4]. split; [congruence|auto].
Qed.

Lemma advances_completed : forall t, advances t (set_completed true t).
Proof. intros []. split; reflexivity. Qed.

Lemma Forall2_advances_refl : forall ts, Forall2 advances ts ts.
Proof. induction ts; constructor; auto using advances_refl. Qed.

Lemma Forall2_advances_trans : forall a b c,
  Forall2 advances a b -> Forall2 advances b c -> Forall2 advances a c.
Proof.
  intros a b c H. revert c. induction H as [|x y a b Hxy Hab IH]; intros c Hc.
  - inversion Hc. constructor.
  - inversion Hc as [|y' z b' c' Hyz Hbc]; subst. constructor.
    + eapply advances_trans; eassumption.
    + apply IH. assumption.
Qed.

Lemma extends_refl : forall ts, extends ts ts.
Proof.
  intros ts. exists ts, []. rewrite List.app_nil_r.
  split; [reflexivity|apply Forall2_advances_refl].
Qed.

Lemma extends_trans : forall a b c, extends a b -> extends b c -> extends a c.
Proof.
  intros a b c (kb & ab & -> & Hb) (kc & ac & -> & Hc).
  apply Forall2_app_inv_l in Hc. destruct Hc as (k1 & k2 & H1 & H2 & ->).
  exists k1, (k2 ++ ac). rewrite List.app_assoc. split; [reflexivity|].
  eapply Forall2_advances_trans; eassumption.
Qed.

Lemma perform_extends : forall c s,
  is_remove c = false -> extends (tasks s) (tasks (perform c s)).
Proof.
  intros [d p due now|f|tid|tid] s H; try discriminate; cbn [perform].
  - rewrite add_task_spec. cbn [final]. rewrite tasks_saved. cbn [tasks].
    eexists. eexists. split; [reflexivity|apply Forall2_advances_refl].
  - rewrite list_tasks_final. apply extends_refl.
  - destruct (complete_first tid (tasks s)) as [ts'|] eqn:E.
    + rewrite (mark_task_complete_found _ _ _ E). cbn [final].
      rewrite tasks_saved. cbn [tasks].
      destruct (complete_first_split _ _ _ E) as (b & t & a & -> & _ & _ & ->).
      exists (b ++ set_completed true t :: a), [].
      rewrite List.app_nil_r. split; [reflexivity|].
      apply Forall2_app; [apply Forall2_advances_refl|].
      constructor; [apply advances_completed|apply Forall2_advances_refl].
    + rewrite (mark_task_complete_missing _ _ E). apply extends_refl.
Qed.

(** X3.  Over any calls among which there is no [remove_task], the tasks of
    the collection stay at their places: each keeps its id, description,
    priority, due date and creation time, a task that was completed stays
    completed, and new tasks come after them. *)
Theorem tasks_only_advance : forall cs s,
  forallb (fun c => negb (is_remove c)) cs = true ->
  extends (tasks s) (tasks (perform_all cs s)).
Proof.
  induction cs as [|c cs IH]; intros s H; cbn [perform_all fold_left].
  - apply extends_refl.
  - cbn [forallb] in H. apply andb_true_iff in H. destruct H as [Hc Hcs].
    apply negb_true_iff in Hc.
    eapply extends_trans; [apply (perform_extends c s Hc)|].
    apply IH, Hcs.
Qed.

Lemma normal_priority_known : forall p,
  Py.str_in (normal_priority p) ["low"; "medium"; "high"] = true.
Proof.
  intros p. unfold normal_priority.
  destruct (Py.str_in (Py.lower p) ["low"; "medium"; "high"]) eqn:E;
    [exact E|reflexivity].
Qed.

Lemma kept_date_not_rejected : forall due,
  rejected_date (if rejected_date due then None else due) = false.
Proof. intros due. destruct (rejected_date due) eqn:E; [reflexivity|exact E]. Qed.

Lemma valid_fields_reindex : forall ts j,
  Forall valid_fields ts -> Forall valid_fields (reindex j ts).
Proof.
  induction ts as [|t r IH]; intros j H; cbn [reindex]; [constructor|].
  inversion H; subst. constructor; [assumption|]. now apply IH.
Qed.

Lemma valid_fields_delete : forall i ts,
  Forall valid_fields ts -> Forall valid_fields (delete_at i ts).
Proof.
  intros i ts H. revert i. induction H as [|t r Ht Hr IH]; intros [|i].
  - constructor.
  - constructor.
  - exact Hr.
  - change (delete_at (S i) (t :: r)) with (t :: delete_at i r).
    constructor; [exact Ht|apply IH].
Qed.

Lemma perform_valid_fields : forall c s,
  Forall valid_fields (tasks s) -> Forall valid_fields (tasks (perform c s)).
Proof.
  intros [d p due now|f|tid|tid] s H; cbn [perform].
  - rewrite add_task_spec. cbn [final]. rewrite tasks_saved. cbn [tasks].
    apply Forall_app. split; [exact H|]. constructor; [|constructor].
    split; cbn [priority due_date];
      [apply normal_priority_known|apply kept_date_not_rejected].
  - now rewrite list_tasks_final.
  - destruct (complete_first tid (tasks s)) as [ts'|] eqn:E.
    + rewrite (mark_task_complete_found _ _ _ E). cbn [final].
      rewrite tasks_saved. cbn [tasks].
      destruct (complete_first_split _ _ _ E) as (b & t & a & Hs & _ & _ & ->).
      rewrite Hs in H. apply Forall_app in H. destruct H as [Hb Ha].
      inversion Ha; subst. apply Forall_app. split; [exact Hb|].
      constructor; assumption.
    + now rewrite (mark_task_complete_missing _ _ E).
  - destruct (find_index tid (tasks s)) as [i|] eqn:E.
    + rewrite (remove_task_found _ _ _ E). cbn [final].
      rewrite tasks_saved. cbn [tasks].
      now apply valid_fields_reindex, valid_fields_delete.
    + now rewrite (remove_task_missing _ _ E).
Qed.

(** X4.  Every call keeps the fields of the tasks valid: the priority is low,
    medium or high, and the due date is [None], the empty text or a text
    [strptime] takes for a date.  So it is for every task of a store that
    started empty, whatever was given to [add_task]. *)
Theorem stored_fields_are_valid :
  (forall c s, Forall valid_fields (tasks s) ->
               Forall valid_fields (tasks (perform c s)))
  /\ (forall cs name d out,
        Forall valid_fields (tasks (perform_all cs (mkState name [] d out)))).
Proof.
  split; [exact perform_valid_fields|].
  intros cs name d out.
  assert (G : forall cs s, Forall valid_fields (tasks s) ->
                           Forall valid_fields (tasks (perform_all cs s))).
  { clear. induction cs as [|c cs IH]; intros s H; cbn [perform_all fold_left];
      [exact H|]. apply IH, perform_valid_fields, H. }
  apply G. constructor.
Qed.

Lemma find_index_last : forall ts t,
  (forall u, In u ts -> id u <> id t) ->
  find_index (id t) (ts ++ [t]) = Some (List.length ts).
Proof.
  induction ts as [|u r IH]; intros t H; cbn [app find_index List.length].
  - now rewrite Z.eqb_refl.
  - destruct (Z.eqb_spec (id u) (id t)) as [E|N].
    + exfalso. apply (H u); [left; reflexivity|exact E].
    + rewrite IH; [reflexivity|]. intros v Hv. apply H. now right.
Qed.

Lemma delete_last : forall (A : Type) (ts : list A) t,
  delete_at (List.length ts) (ts ++ [t]) = ts.
Proof.
  intros A ts t. unfold delete_at.
  rewrite firstn_app, Nat.sub_diag, firstn_all. cbn [firstn].
  rewrite List.app_nil_r.
  rewrite skipn_all2; [now rewrite List.app_nil_r|].
  rewrite length_app. cbn. lia.
Qed.

Lemma In_count_from : forall n a x, In x (count_from a n) -> a <= x < a + Z.of_nat n.
Proof.
  induction n as [|n IH]; intros a x H; cbn in H; [contradiction|].
  destruct H as [<-|H]; [lia|]. apply IH in H. lia.
Qed.

(** X5.  On a collection whose ids are 1, 2, ..., N, a task that was just added
    is removed again by its id, and the collection is then what it was before
    the task was added. *)
Theorem add_then_remove_restores : forall d p due now s,
  dense_ids (tasks s) ->
  exists t s1 s2,
    add_task d p due now s = Returned t s1
    /\ remove_task (id t) s1 = Returned true s2
    /\ tasks s2 = tasks s.
Proof.
  intros d p due now s D. rewrite add_task_spec.
  eexists. eexists. eexists. split; [reflexivity|].
  set (t := mkTask _ _ _ _ _ _).
  assert (F : find_index (id t) (tasks s ++ [t]) = Some (List.length (tasks s))).
  { apply find_index_last. intros u Hu E.
    apply (in_map id) in Hu. rewrite D in Hu. apply In_count_from in Hu.
    rewrite E in Hu. subst t. cbn [id] in Hu. unfold Py.len in Hu. lia. }
  rewrite (remove_task_found (id t) _ (List.length (tasks s)))
    by (rewrite tasks_saved; exact F).
  split; [reflexivity|].
  rewrite !tasks_saved. cbn [tasks]. rewrite delete_last.
  apply reindex_same, D.
Qed.

End TodoTaskToolMore.

(** ** Further properties of [TodoApp] *)

Section TodoAppMore.
Import TodoApp.


Lemma printed_printed : forall a b s, printed b (printed a s) = printed (a ++ b) s.
Proof. intros a b s. unfold printed. cbn. now rewrite List.app_assoc. Qed.

Lemma printed_nil : forall s, printed [] s = s.
Proof. intros []. unfold printed. cbn. now rewrite List.app_nil_r. Qed.

Lemma both_fields_shape : forall t,
  has_both_fields t = true -> exists d st extra, t = d :: st :: extra.
Proof. intros [|d [|st extra]] H; try discriminate. eauto. Qed.

Lemma lacking_field_shape : forall t,
  has_both_fields t = false -> t = [] \/ exists d, t = [d].
Proof. intros [|d [|st extra]] H; try discriminate; eauto. Qed.

(** The loop of [view_tasks] on entries that have both fields. *)
Lemma print_tasks_all : forall ts i s,
  forallb has_both_fields ts = true ->
  print_tasks i ts s = Returned tt (printed (numbered_lines i ts) s).
Proof.
  induction ts as [|t r IH]; intros i s H.
  - cbn. now rewrite printed_nil.
  - cbn [forallb] in H. apply andb_true_iff in H. destruct H as [Ht Hr].
    destruct (both_fields_shape _ Ht) as (d & st & extra & ->).
    cbn [print_tasks numbered_lines].
    rewrite (run_bind _ _ _ (item (d :: st :: extra) 0%nat) _ s d s eq_refl).
    rewrite (run_bind _ _ _ (item (d :: st :: extra) 1%nat) _ s st s eq_refl).
    match goal with |- bind (print ?m) _ _ = _ =>
      rewrite (run_bind _ _ _ (print m) _ s tt (printed [m] s) eq_refl) end.
    rewrite (IH _ _ Hr), printed_printed. reflexivity.
Qed.

(** The loop of [view_tasks] up to an entry that lacks a field. *)
Lemma print_tasks_until : forall before t after i s,
  forallb has_both_fields before = true -> has_both_fields t = false ->
  print_tasks i (before ++ t :: after) s
  = Raised IndexError (printed (numbered_lines i before) s).
Proof.
  induction before as [|u r IH]; intros t after i s H Ht.
  - cbn [app numbered_lines]. rewrite printed_nil.
    destruct (lacking_field_shape _ Ht) as [->|(d & ->)]; reflexivity.
  - cbn [forallb] in H. apply andb_true_iff in H. destruct H as [Hu Hr].
    destruct (both_fields_shape _ Hu) as (d & st & extra & ->).
    cbn [app print_tasks numbered_lines].
    rewrite (run_bind _ _ _ (item (d :: st :: extra) 0%nat) _ s d s eq_refl).
    rewrite (run_bind _ _ _ (item (d :: st :: extra) 1%nat) _ s st s eq_refl).
    match goal with |- bind (print ?m) _ _ = _ =>
      rewrite (run_bind _ _ _ (print m) _ s tt (printed [m] s) eq_refl) end.
    rewrite (IH _ _ _ _ Hr Ht), printed_printed. reflexivity.
Qed.

Lemma length_numbered_lines : forall ts i,
  forallb has_both_fields ts = true ->
  List.length (numbered_lines i ts) = List.length ts.
Proof.
  induction ts as [|t r IH]; intros i H; [reflexivity|].
  cbn [forallb] in H. apply andb_true_iff in H. destruct H as [Ht Hr].
  destruct (both_fields_shape _ Ht) as (d & st & extra & ->).
  cbn. now rewrite IH.
Qed.

(** X6.  [view_tasks] changes neither the collection nor the file.  On the
    empty collection it prints [No tasks found.]; on entries that all have a
    description and a status it prints one line for each, in order, numbered
    from 1; and when an entry lacks a field it raises [IndexError] after the
    lines of the entries before that one. *)
Theorem view_tasks_prints_numbered_lines : forall s,
  (tasks s = [] -> view_tasks s = Returned tt (printed ["No tasks found."] s))
  /\ (tasks s <> [] -> forallb has_both_fields (tasks s) = true ->
      view_tasks s = Returned tt (printed (numbered_lines 1 (tasks s)) s)
      /\ List.length (numbered_lines 1 (tasks s)) = List.length (tasks s))
  /\ (forall before t after,
        tasks s = before ++ t :: after ->
        forallb has_both_fields before = true -> has_both_fields t = false ->
        view_tasks s = Raised IndexError (printed (numbered_lines 1 before) s)).
Proof.
  intros s. unfold view_tasks.
  rewrite (run_bind _ _ _ get_tasks _ s (tasks s) s eq_refl).
  split; [|split].
  - intros ->. reflexivity.
  - intros N H. split; [|now apply length_numbered_lines].
    destruct (tasks s) as [|t r] eqn:E; [contradiction|].
    now apply print_tasks_all.
  - intros before t after E H Ht. rewrite E.
    destruct (before ++ t :: after) eqn:E2.
    + destruct before; discriminate.
    + rewrite <- E2. now apply print_tasks_until.
Qed.


(** The loop of [save_tasks] on entries that have both fields. *)
Lemma write_lines_all : forall ts s old,
  content (disk s) = Some old ->
  forallb has_both_fields ts = true ->
  write_lines ts s = Returned tt (set_content (old ++ written_lines ts) s).
Proof.
  induction ts as [|t r IH]; intros s old Hc H.
  - cbn. rewrite str_app_nil_r. destruct s as [n ts [c rd w] o].
    cbn in Hc. subst c. reflexivity.
  - cbn [forallb] in H. apply andb_true_iff in H. destruct H as [Ht Hr].
    destruct (both_fields_shape _ Ht) as (d & st & extra & ->).
    cbn [write_lines written_lines]. unfold bind, item. cbn [nth_error ret].
    unfold write at 1. rewrite Hc.
    rewrite (IH _ (old ++ line_of d st)%string) by (reflexivity || assumption).
    rewrite set_content_twice, str_app_assoc. reflexivity.
Qed.

(** The loop of [save_tasks] up to an entry that lacks a field. *)
Lemma write_lines_until : forall before t after s old,
  content (disk s) = Some old ->
  forallb has_both_fields before = true -> has_both_fields t = false ->
  write_lines (before ++ t :: after) s
  = Raised IndexError (set_content (old ++ written_lines before) s).
Proof.
  induction before as [|u r IH]; intros t after s old Hc H Ht.
  - cbn [app written_lines]. rewrite str_app_nil_r.
    assert (E : set_content old s = s).
    { destruct s as [n ts [c rd w] o]. cbn in Hc. subst c. reflexivity. }
    rewrite E.
    destruct (lacking_field_shape _ Ht) as [->|(d & ->)]; reflexivity.
  - cbn [forallb] in H. apply andb_true_iff in H. destruct H as [Hu Hr].
    destruct (both_fields_shape _ Hu) as (d & st & extra & ->).
    cbn [app write_lines written_lines]. unfold bind at 1 2 3, item.
    cbn [nth_error ret]. unfold write at 1. rewrite Hc.
    rewrite (IH _ _ _ (old ++ line_of d st)%string) by (reflexivity || assumption).
    rewrite set_content_twice, str_app_assoc. reflexivity.
Qed.

Lemma save_tasks_all : forall s,
  writable (disk s) = true -> forallb has_both_fields (tasks s) = true ->
  save_tasks s = Returned tt (set_content (written_lines (tasks s)) s).
Proof.
  intros s W H. unfold save_tasks, bind, open_w. rewrite W.
  unfold get_tasks. cbn [tasks set_content].
  rewrite (write_lines_all _ _ "") by (reflexivity || assumption).
  rewrite set_content_twice. reflexivity.
Qed.

Lemma save_tasks_until : forall s before t after,
  writable (disk s) = true -> tasks s = before ++ t :: after ->
  forallb has_both_fields before = true -> has_both_fields t = false ->
  save_tasks s = Raised IndexError (set_content (written_lines before) s).
Proof.
  intros s before t after W E H Ht. unfold save_tasks, bind, open_w. rewrite W.
  unfold get_tasks. cbn [tasks set_content]. rewrite E.
  rewrite (write_lines_until _ _ _ _ "") by (reflexivity || assumption).
  rewrite set_content_twice. reflexivity.
Qed.

Lemma parse_line_without_bar : forall line,
  all_chars (fun c => negb (is_bar c)) (Py.strip line) = true ->
  parse_line line = [Py.strip line].
Proof. intros line H. unfold parse_line. now apply split_no_bar. Qed.

(** X7.  A line of the file without bar is read as an entry of one field.
    With such an entry in the collection, [save_tasks] raises [IndexError]
    when it comes to it: the file, emptied when it was opened, is left with
    the lines of the entries before that one only.  [add_task] puts the new
    task in the collection and ends in the same way. *)
Theorem entry_without_status_cuts_the_file :
  (forall line,
     all_chars (fun c => negb (is_bar c)) (Py.strip line) = true ->
     has_both_fields (parse_line line) = false)
  /\ (forall s before t after,
        writable (disk s) = true -> tasks s = before ++ t :: after ->
        forallb has_both_fields before = true -> has_both_fields t = false ->
        save_tasks s = Raised IndexError (set_content (written_lines before) s)
        /\ forall d,
             add_task d s
             = Raised IndexError
                 (set_content (written_lines before)
                    (mkState (filename s) (tasks s ++ [[d; "Pending"]])
                             (disk s) (stdout s)))).
Proof.
  split.
  - intros line H. now rewrite parse_line_without_bar.
  - intros s before t after W E H Ht.
    split; [now apply (save_tasks_until s before t after)|].
    intros d. unfold add_task.
    rewrite (run_bind _ _ _ get_tasks _ s (tasks s) s eq_refl).
    rewrite (run_bind _ _ _ (set_tasks _) _ s tt _ eq_refl).
    apply run_bind_raised.
    apply (save_tasks_until _ before t (after ++ [[d; "Pending"]])); auto.
    cbn [tasks]. rewrite E, <- List.app_assoc. reflexivity.
Qed.

Lemma out_of_range : forall i (ts : list task),
  ~ (1 <= i <= Py.len ts) -> in_range i ts = false.
Proof.
  intros i ts H. unfold in_range. apply andb_false_iff.
  destruct (Z.leb_spec 1 i); [right|left; reflexivity].
  apply Z.leb_gt. lia.
Qed.

Lemma remove_task_in_range : forall i s,
  in_range i (tasks s) = true ->
  exists before t after,
    tasks s = before ++ t :: after
    /\ Z.of_nat (List.length before) = i - 1
    /\ tasks (final (remove_task i s)) = before ++ after.
Proof.
  intros i s H.
  destruct (in_range_split _ _ H) as (b & t & a & Hs & Hl).
  exists b, t, a. split; [exact Hs|]. split.
  { unfold in_range in H. apply andb_true_iff in H. destruct H as [H _].
    apply Z.leb_le in H. lia. }
  unfold remove_task.
  rewrite (run_bind _ _ _ get_tasks _ s (tasks s) s eq_refl), H.
  cbv zeta. rewrite <- Hl, Hs.
  rewrite (run_bind _ _ _ _ _ _ _ _ (item_middle _ b t a s)).
  rewrite (run_bind _ _ _ (set_tasks _) _ s tt _ eq_refl).
  match goal with |- tasks (final (?m ?s1)) = _ =>
    assert (K : keeps_tasks m); [|rewrite K] end.
  { apply keeps_bind; [apply keeps_save_tasks|]. intros _.
    apply keeps_bind; [apply keeps_item|]. intros x. apply keeps_print. }
  cbn [tasks]. unfold TodoTaskTool.delete_at.
  rewrite firstn_app, Nat.sub_diag, firstn_all. cbn [firstn].
  rewrite List.app_nil_r.
  replace (S (List.length b)) with (List.length (b ++ [t]))
    by (rewrite length_app; cbn; lia).
  replace (b ++ t :: a) with ((b ++ [t]) ++ a) by now rewrite <- List.app_assoc.
  rewrite skipn_app, skipn_all, Nat.sub_diag. reflexivity.
Qed.

(** X8.  With a number that is not between 1 and the number of tasks (zero
    and the negative numbers among them), [mark_complete] and [remove_task]
    print [Invalid task number.] and return: no entry and nothing of the
    file is touched.  With a number between these, [remove_task] takes out
    the entry at that place and keeps the others in their order, whatever
    becomes of the writing of the file. *)
Theorem task_number_bounds : forall i s,
  (~ (1 <= i <= Py.len (tasks s)) ->
   mark_complete i s = Returned tt (printed ["Invalid task number."] s)
   /\ remove_task i s = Returned tt (printed ["Invalid task number."] s))
  /\ (1 <= i <= Py.len (tasks s) ->
      exists before t after,
        tasks s = before ++ t :: after
        /\ Z.of_nat (List.length before) = i - 1
        /\ tasks (final (remove_task i s)) = before ++ after).
Proof.
  intros i s. split.
  - intros H. apply out_of_range in H. unfold mark_complete, remove_task.
    rewrite !(run_bind _ _ _ get_tasks _ s (tasks s) s eq_refl), H.
    split; reflexivity.
  - intros H. apply remove_task_in_range. unfold in_range.
    apply andb_true_iff. split; apply Z.leb_le; lia.
Qed.




Lemma both_fields_app : forall a b : list task,
  forallb has_both_fields (a ++ b)
  = (forallb has_both_fields a && forallb has_both_fields b)%bool.
Proof. intros a b. apply forallb_app. Qed.

Lemma delete_middle : forall (A : Type) (b : list A) t a,
  TodoTaskTool.delete_at (List.length b) (b ++ t :: a) = b ++ a.
Proof.
  intros A b t a. unfold TodoTaskTool.delete_at.
  rewrite firstn_app, Nat.sub_diag, firstn_all. cbn [firstn].
  rewrite List.app_nil_r.
  replace (S (List.length b)) with (List.length (b ++ [t]))
    by (rewrite length_app; cbn; lia).
  replace (b ++ t :: a) with ((b ++ [t]) ++ a) by now rewrite <- List.app_assoc.
  rewrite skipn_app, skipn_all, Nat.sub_diag. reflexivity.
Qed.

Lemma add_task_writable : forall d s,
  writable (disk s) = true -> forallb has_both_fields (tasks s) = true ->
  add_task d s
  = Returned tt (written (tasks s ++ [[d; "Pending"]])
                         [("Task '" ++ d ++ "' added successfully.")%string] s).
Proof.
  intros d s W H. unfold add_task.
  rewrite (run_bind _ _ _ get_tasks _ s (tasks s) s eq_refl).
  rewrite (run_bind _ _ _ (set_tasks _) _ s tt _ eq_refl).
  erewrite run_bind;
    [|apply save_tasks_all; [exact W|]; cbn [tasks];
      rewrite both_fields_app, H; reflexivity].
  reflexivity.
Qed.

Lemma mark_complete_writable : forall i s before d st extra after,
  writable (disk s) = true -> forallb has_both_fields (tasks s) = true ->
  tasks s = before ++ (d :: st :: extra) :: after ->
  Z.of_nat (List.length before) = i - 1 ->
  mark_complete i s
  = Returned tt (written (before ++ (d :: "Completed" :: extra) :: after)
                         [("Task '" ++ d ++ "' marked as completed.")%string] s).
Proof.
  intros i s b d st extra a W H Hs Hl.
  assert (R : in_range i (tasks s) = true).
  { unfold in_range, Py.len. rewrite Hs, length_app. cbn [List.length].
    apply andb_true_iff. split; apply Z.leb_le; lia. }
  assert (Hn : Z.to_nat (i - 1) = List.length b) by lia.
  unfold mark_complete.
  rewrite (run_bind _ _ _ get_tasks _ s (tasks s) s eq_refl), R. cbv zeta.
  rewrite Hn, Hs.
  rewrite (run_bind _ _ _ _ _ _ _ _ (item_middle _ b _ a s)).
  cbn [set_item]. rewrite set_item_middle.
  rewrite (run_bind _ _ _ (set_tasks _) _ s tt _ eq_refl).
  erewrite run_bind;
    [|apply save_tasks_all; [exact W|]; cbn [tasks];
      rewrite Hs, both_fields_app in H; cbn [forallb] in H;
      rewrite both_fields_app; cbn [forallb];
      apply andb_true_iff in H; destruct H as [H1 H2];
      apply andb_true_iff in H2; destruct H2 as [_ H2];
      rewrite H1, H2; reflexivity].
  reflexivity.
Qed.

Lemma remove_task_writable : forall i s before d rest after,
  writable (disk s) = true -> forallb has_both_fields (tasks s) = true ->
  tasks s = before ++ (d :: rest) :: after ->
  Z.of_nat (List.length before) = i - 1 ->
  remove_task i s
  = Returned tt (written (before ++ after)
                         [("Task '" ++ d ++ "' removed successfully.")%string] s).
Proof.
  intros i s b d rest a W H Hs Hl.
  assert (R : in_range i (tasks s) = true).
  { unfold in_range, Py.len. rewrite Hs, length_app. cbn [List.length].
    apply andb_true_iff. split; apply Z.leb_le; lia. }
  assert (Hn : Z.to_nat (i - 1) = List.length b) by lia.
  unfold remove_task.
  rewrite (run_bind _ _ _ get_tasks _ s (tasks s) s eq_refl), R. cbv zeta.
  rewrite Hn, Hs.
  rewrite (run_bind _ _ _ _ _ _ _ _ (item_middle _ b _ a s)).
  rewrite (run_bind _ _ _ (set_tasks _) _ s tt _ eq_refl).
  rewrite delete_middle.
  erewrite run_bind;
    [|apply save_tasks_all; [exact W|]; cbn [tasks];
      rewrite Hs, both_fields_app in H; cbn [forallb] in H;
      rewrite both_fields_app;
      apply andb_true_iff in H; destruct H as [H1 H2];
      apply andb_true_iff in H2; destruct H2 as [_ H2];
      rewrite H1, H2; reflexivity].
  reflexivity.
Qed.

Lemma view_tasks_printed : forall s,
  forallb has_both_fields (tasks s) = true ->
  exists out, view_tasks s = Returned tt (printed out s).
Proof.
  intros s H. unfold view_tasks.
  rewrite (run_bind _ _ _ get_tasks _ s (tasks s) s eq_refl).
  destruct (tasks s) as [|t r] eqn:E.
  - eexists. reflexivity.
  - eexists. now apply print_tasks_all.
Qed.

(** A call on entries that have both fields, the file being writable:
    it returns, having changed the collection and written it, or having
    changed nothing. *)
Lemma run_call_writable : forall c s,
  writable (disk s) = true -> forallb has_both_fields (tasks s) = true ->
  (exists ts' out,
     run_call c s = Returned tt (written ts' out s) /\ follows c (tasks s) ts')
  \/ (exists out, run_call c s = Returned tt (printed out s)).
Proof.
  intros [d| |i|i] s W H; cbn [run_call].
  - left. eexists. eexists. split; [now apply add_task_writable|reflexivity].
  - right. now apply view_tasks_printed.
  - destruct (in_range i (tasks s)) eqn:R.
    + left. destruct (in_range_split _ _ R) as (b & t & a & Hs & Hl).
      assert (Ht : has_both_fields t = true).
      { rewrite Hs, both_fields_app in H. cbn [forallb] in H.
        apply andb_true_iff in H. destruct H as [_ H].
        apply andb_true_iff in H. tauto. }
      destruct (both_fields_shape _ Ht) as (d & st & extra & ->).
      assert (Hi : Z.of_nat (List.length b) = i - 1).
      { unfold in_range in R. apply andb_true_iff in R. destruct R as [R _].
        apply Z.leb_le in R. lia. }
      eexists. eexists. split.
      * now apply (mark_complete_writable i s b d st extra a).
      * cbn. exists b, d, st, extra, a. auto.
    + right. unfold mark_complete.
      rewrite (run_bind _ _ _ get_tasks _ s (tasks s) s eq_refl), R.
      eexists. reflexivity.
  - destruct (in_range i (tasks s)) eqn:R.
    + left. destruct (in_range_split _ _ R) as (b & t & a & Hs & Hl).
      assert (Ht : has_both_fields t = true).
      { rewrite Hs, both_fields_app in H. cbn [forallb] in H.
        apply andb_true_iff in H. destruct H as [_ H].
        apply andb_true_iff in H. tauto. }
      destruct (both_fields_shape _ Ht) as (d & st & extra & ->).
      assert (Hi : Z.of_nat (List.length b) = i - 1).
      { unfold in_range in R. apply andb_true_iff in R. destruct R as [R _].
        apply Z.leb_le in R. lia. }
      eexists. eexists. split.
      * now apply (remove_task_writable i s b d (st :: extra) a).
      * cbn. exists b, (d :: st :: extra), a. auto.
    + right. unfold remove_task.
      rewrite (run_bind _ _ _ get_tasks _ s (tasks s) s eq_refl), R.
      eexists. reflexivity.
Qed.


Lemma made_by_app_both_fields : forall ts,
  Forall made_by_app ts -> forallb has_both_fields ts = true.
Proof.
  induction 1 as [|t r (d & st & -> & _) _ IH]; [reflexivity|].
  cbn. exact IH.
Qed.

Lemma follows_made_by_app : forall c ts ts',
  follows c ts ts' -> Forall made_by_app ts -> Forall made_by_app ts'.
Proof.
  intros [d| |i|i] ts ts' F H; cbn in F.
  - subst ts'. apply Forall_app. split; [exact H|].
    constructor; [|constructor]. exists d, "Pending". auto.
  - contradiction.
  - destruct F as (b & d & st & extra & a & -> & _ & ->).
    apply Forall_app in H. destruct H as [Hb Ha]. inversion Ha as [|? ? Ht Ha']; subst.
    apply Forall_app. split; [exact Hb|]. constructor; [|exact Ha'].
    destruct Ht as (d' & st' & E & _). injection E as -> -> ->.
    exists d', "Completed". auto.
  - destruct F as (b & t & a & -> & _ & ->).
    apply Forall_app in H. destruct H as [Hb Ha]. inversion Ha; subst.
    apply Forall_app. split; assumption.
Qed.

Lemma keeps_print_tasks : forall ts i, keeps_tasks (print_tasks i ts).
Proof.
  induction ts as [|t r IH]; intros i; cbn [print_tasks]; [intros s; reflexivity|].
  apply keeps_bind; [apply keeps_item|]. intros d.
  apply keeps_bind; [apply keeps_item|]. intros st.
  apply keeps_bind; [apply keeps_print|]. intros _. apply IH.
Qed.

Lemma keeps_view_tasks : keeps_tasks view_tasks.
Proof.
  unfold view_tasks. apply keeps_bind; [intros s; reflexivity|].
  intros [|t r]; [apply keeps_print|apply keeps_print_tasks].
Qed.

Lemma add_task_tasks : forall d s,
  tasks (final (add_task d s)) = tasks s ++ [[d; "Pending"]].
Proof.
  intros d s. unfold add_task.
  rewrite (run_bind _ _ _ get_tasks _ s (tasks s) s eq_refl).
  rewrite (run_bind _ _ _ (set_tasks _) _ s tt _ eq_refl).
  match goal with |- tasks (final (?m ?s1)) = _ =>
    assert (K : keeps_tasks m); [|rewrite K; reflexivity] end.
  apply keeps_bind; [apply keeps_save_tasks|]. intros _. apply keeps_print.
Qed.

Lemma in_range_cases : forall i (ts : list task),
  (in_range i ts = true /\ 1 <= i <= Py.len ts)
  \/ (in_range i ts = false /\ ~ (1 <= i <= Py.len ts)).
Proof.
  intros i ts. unfold in_range.
  destruct (Z.leb_spec 1 i); destruct (Z.leb_spec i (Py.len ts)); cbn;
    [left|right|right|right]; split; auto; lia.
Qed.

Lemma perform_made_by_app : forall c s,
  Forall made_by_app (tasks s) -> Forall made_by_app (tasks (perform c s)).
Proof.
  intros [d| |i|i] s H; unfold perform; cbn [run_call].
  - rewrite add_task_tasks. apply (follows_made_by_app (Add d) (tasks s)); auto.
    reflexivity.
  - now rewrite keeps_view_tasks.
  - destruct (in_range_cases i (tasks s)) as [[R _]|[R _]].
    + destruct (mark_complete_in_range i s R) as (b & t & a & Hs & Hl & Ht).
      assert (M : made_by_app t).
      { rewrite Hs in H. apply Forall_app in H. destruct H as [_ H].
        now inversion H. }
      destruct M as (d & st & -> & _). rewrite Ht.
      apply (follows_made_by_app (Complete i) (tasks s)); [|exact H].
      cbn. exists b, d, st, [], a. auto.
    + unfold mark_complete.
      rewrite (run_bind _ _ _ get_tasks _ s (tasks s) s eq_refl), R. exact H.
  - destruct (in_range_cases i (tasks s)) as [[R _]|[R _]].
    + destruct (remove_task_in_range i s R) as (b & t & a & Hs & Hl & Ht).
      rewrite Ht.
      apply (follows_made_by_app (Remove i) (tasks s)); [|exact H].
      cbn. exists b, t, a. auto.
    + unfold remove_task.
      rewrite (run_bind _ _ _ get_tasks _ s (tasks s) s eq_refl), R. exact H.
Qed.

Lemma run_call_returns_writable : forall c s,
  Forall made_by_app (tasks s) -> writable (disk s) = true ->
  exists s', run_call c s = Returned tt s'.
Proof.
  intros c s H W.
  destruct (run_call_writable c s W (made_by_app_both_fields _ H))
    as [(ts' & out & E & _)|(out & E)]; eauto.
Qed.

Lemma run_call_raises_IOError_only : forall c s e s',
  Forall made_by_app (tasks s) -> run_call c s = Raised e s' -> e = IOError.
Proof.
  intros c s e s' H E. destruct (writable (disk s)) eqn:W.
  - destruct (run_call_returns_writable c s H W) as (s1 & E1). congruence.
  - destruct c as [d| |i|i]; cbn [run_call] in E.
    + rewrite (add_task_unwritable d s W) in E. congruence.
    + destruct (view_tasks_printed s (made_by_app_both_fields _ H)) as (out & E1).
      congruence.
    + destruct (in_range_cases i (tasks s)) as [[R _]|[R _]].
      * destruct (in_range_split _ _ R) as (b & t & a & Hs & Hl).
        assert (M : made_by_app t).
        { rewrite Hs in H. apply Forall_app in H. destruct H as [_ H].
          now inversion H. }
        destruct M as (d & st & -> & _).
        assert (Hi : Z.of_nat (List.length b) = i - 1).
        { unfold in_range in R. apply andb_true_iff in R. destruct R as [R _].
          apply Z.leb_le in R. lia. }
        rewrite (mark_complete_unwritable i s b d st [] a W Hs Hi) in E.
        congruence.
      * unfold mark_complete in E.
        rewrite (run_bind _ _ _ get_tasks _ s (tasks s) s eq_refl), R in E.
        discriminate.
    + destruct (in_range_cases i (tasks s)) as [[R _]|[R _]].
      * rewrite (remove_task_unwritable i s W R) in E. congruence.
      * unfold remove_task in E.
        rewrite (run_bind _ _ _ get_tasks _ s (tasks s) s eq_refl), R in E.
        discriminate.
Qed.

(** X9.  The entries the operations of the text store make are a description
    and a status that is [Pending] or [Completed], and they stay so under
    every call; so they are in a store that started empty.  On such entries
    no call raises [IndexError]: a call returns when the file can be
    written, and the only exception it can end in is [IOError]. *)
Theorem own_entries_keep_both_fields :
  (forall c s, Forall made_by_app (tasks s) ->
               Forall made_by_app (tasks (perform c s)))
  /\ (forall cs d,
        Forall made_by_app (tasks (perform_all cs (mkState "tasks.txt" [] d []))))
  /\ (forall c s, Forall made_by_app (tasks s) -> writable (disk s) = true ->
                  exists s', run_call c s = Returned tt s')
  /\ (forall c s e s', Forall made_by_app (tasks s) ->
                       run_call c s = Raised e s' -> e = IOError).
Proof.
  split; [exact perform_made_by_app|].
  split; [|split; [exact run_call_returns_writable|exact run_call_raises_IOError_only]].
  intros cs d.
  assert (G : forall cs s, Forall made_by_app (tasks s) ->
                           Forall made_by_app (tasks (perform_all cs s))).
  { clear. induction cs as [|c cs IH]; intros s H; cbn [perform_all fold_left];
      [exact H|]. apply IH, perform_made_by_app, H. }
  apply G. constructor.
Qed.

Lemma line_safe_both_fields : forall ts,
  forallb line_safe ts = true -> forallb has_both_fields ts = true.
Proof.
  induction ts as [|t r IH]; intros H; [reflexivity|].
  cbn [forallb] in H. apply andb_true_iff in H. destruct H as [Ht Hr].
  destruct (line_safe_shape _ Ht) as (d & st & ->). cbn. now apply IH.
Qed.

Lemma written_lines_safe : forall ts,
  forallb line_safe ts = true -> written_lines ts = lines_text ts.
Proof.
  induction ts as [|t r IH]; intros H; [reflexivity|].
  cbn [forallb] in H. apply andb_true_iff in H. destruct H as [Ht Hr].
  destruct (line_safe_shape _ Ht) as (d & st & ->). cbn. now rewrite IH.
Qed.

Lemma line_safe_completed : forall d st,
  line_safe [d; st] = true -> line_safe [d; "Completed"] = true.
Proof.
  intros d st H. unfold line_safe in *.
  repeat (apply andb_true_iff in H; destruct H as [H ?]).
  rewrite H, H1. reflexivity.
Qed.

Lemma follows_line_safe : forall c ts ts',
  safe_call c = true -> follows c ts ts' ->
  forallb line_safe ts = true -> forallb line_safe ts' = true.
Proof.
  intros [d| |i|i] ts ts' S F H; cbn [follows safe_call] in F, S.
  - subst ts'. rewrite forallb_app, H. cbn [forallb]. now rewrite S.
  - contradiction.
  - destruct F as (b & d & st & extra & a & -> & _ & ->).
    rewrite forallb_app in *. cbn [forallb] in *.
    apply andb_true_iff in H. destruct H as [Hb H].
    apply andb_true_iff in H. destruct H as [Ht Ha].
    destruct (line_safe_shape _ Ht) as (d' & st' & E). injection E as -> -> ->.
    now rewrite Hb, Ha, (line_safe_completed _ _ Ht).
  - destruct F as (b & t & a & -> & _ & ->).
    rewrite forallb_app in *. cbn [forallb] in H.
    apply andb_true_iff in H. destruct H as [Hb H].
    apply andb_true_iff in H. destruct H as [_ Ha]. now rewrite Hb, Ha.
Qed.

Lemma perform_safe : forall c s,
  writable (disk s) = true -> readable (disk s) = true ->
  forallb line_safe (tasks s) = true -> in_step_text s -> safe_call c = true ->
  writable (disk (perform c s)) = true
  /\ readable (disk (perform c s)) = true
  /\ forallb line_safe (tasks (perform c s)) = true
  /\ in_step_text (perform c s).
Proof.
  intros c s W R H I S. unfold perform.
  destruct (run_call_writable c s W (line_safe_both_fields _ H))
    as [(ts' & out & -> & F)|(out & ->)]; cbn [final].
  - pose proof (follows_line_safe c _ _ S F H) as H'.
    unfold written, printed, in_step_text. cbn. rewrite W, R, H'.
    rewrite (written_lines_safe _ H'). auto.
  - unfold printed. cbn. auto.
Qed.

Lemma init_in_step_text : forall s,
  readable (disk s) = true -> forallb line_safe (tasks s) = true ->
  in_step_text s ->
  init (disk s) = Returned tt (mkState "tasks.txt" (tasks s) (disk s) []).
Proof.
  intros s R H I. unfold in_step_text in I. unfold init.
  destruct (content (disk s)) as [text|] eqn:C.
  - rewrite (load_tasks_present _ text) by assumption. cbn.
    rewrite I, readlines_lines_text by exact H. reflexivity.
  - rewrite load_tasks_missing by assumption. now rewrite I.
Qed.

(** X10.  In the text store, when the file can be written and read, is in
    step with the collection, and the entries and the descriptions given to
    [add_task] hold no bar, no line end and no white space at their ends,
    then after any calls the file is still in step, and the store made anew
    on it has the collection the calls left. *)
Theorem text_store_restart_finds_the_collection : forall cs s,
  writable (disk s) = true -> readable (disk s) = true ->
  forallb line_safe (tasks s) = true -> in_step_text s ->
  forallb safe_call cs = true ->
  in_step_text (perform_all cs s)
  /\ init (disk (perform_all cs s))
     = Returned tt (mkState "tasks.txt" (tasks (perform_all cs s))
                            (disk (perform_all cs s)) []).
Proof.
  intros cs s W R H I S.
  assert (G : writable (disk (perform_all cs s)) = true
              /\ readable (disk (perform_all cs s)) = true
              /\ forallb line_safe (tasks (perform_all cs s)) = true
              /\ in_step_text (perform_all cs s)).
  { revert s W R H I. induction cs as [|c cs IH]; intros s W R H I;
      cbn [perform_all fold_left]; [auto|].
    cbn [forallb] in S. apply andb_true_iff in S. destruct S as [Sc Scs].
    destruct (perform_safe c s W R H I Sc) as (W' & R' & H' & I').
    now apply IH. }
  destruct G as (W' & R' & H' & I').
  split; [exact I'|]. now apply init_in_step_text.
Qed.

End TodoAppMore.

(** ** [main] of [TodoApp] *)

Section TodoAppMain.
Import TodoApp.










End TodoAppMain.

(** ** Instances of the further properties *)

Section MoreWitnesses.


(** X2, an instance: the ids 2 and 3 on the collection of two tasks. *)
Lemma dense_ids_are_positions_witness :
  dense_ids (tasks two_tasks)
  /\ (exists s1, TodoTaskTool.mark_task_complete 2 two_tasks = Returned true s1
                 /\ map TodoTaskTool.completed (tasks s1) = [false; true])
  /\ (exists s2, TodoTaskTool.remove_task 3 two_tasks = Returned false s2).
Proof.
  assert (D : dense_ids (tasks two_tasks)) by reflexivity.
  split; [exact D|].
  destruct (dense_ids_are_positions 2 two_tasks D) as [H _].
  destruct (dense_ids_are_positions 3 two_tasks D) as [_ H3].
  split.
  - assert (R : 1 <= 2 <= Py.len (tasks two_tasks)) by (change (1 <= 2 <= 2); lia).
    destruct (H R) as (b & t & a & _ & _ & _ & _).
    eexists. split; [reflexivity|reflexivity].
  - assert (R : ~ (1 <= 3 <= Py.len (tasks two_tasks)))
      by (change (~ (1 <= 3 <= 2)); lia).
    exact (proj2 (H3 R)).
Defined.

(** X3, an instance: a task is marked and one is added. *)
Lemma tasks_only_advance_witness :
  extends (tasks two_tasks)
    (tasks (TodoTaskTool.perform_all
              [TodoTaskTool.Complete 1;
               TodoTaskTool.Add "Write report" "low" None "2024-01-02 09:00:00"]
              two_tasks)).
Proof.
  exact (tasks_only_advance
           [TodoTaskTool.Complete 1;
            TodoTaskTool.Add "Write report" "low" None "2024-01-02 09:00:00"]
           two_tasks eq_refl).
Defined.

(** X4, an instance: a priority and a due date that are not known. *)
Lemma stored_fields_are_valid_witness :
  Forall valid_fields
    (tasks (TodoTaskTool.perform
              (TodoTaskTool.Add "Write report" "URGENT" (Some "not-a-date")
                 "2024-01-02 09:00:00")
              two_tasks)).
Proof.
  apply (proj1 stored_fields_are_valid).
  repeat constructor.
Defined.

(** X5, an instance: on the collection of two tasks. *)
Lemma add_then_remove_restores_witness :
  dense_ids (tasks two_tasks)
  /\ exists t s1 s2,
       TodoTaskTool.add_task "Write report" "low" None "2024-01-02 09:00:00" two_tasks
       = Returned t s1
       /\ TodoTaskTool.remove_task (TodoTaskTool.id t) s1 = Returned true s2
       /\ tasks s2 = tasks two_tasks.
Proof.
  assert (D : dense_ids (tasks two_tasks)) by reflexivity.
  split; [exact D|].
  exact (add_then_remove_restores "Write report" "low" None "2024-01-02 09:00:00"
           two_tasks D).
Defined.

(** X6, an instance: one task, then the entry without status. *)
Lemma view_tasks_prints_numbered_lines_witness :
  TodoApp.view_tasks milk_app
  = Returned tt (printed ["1. Buy milk - Pending"] milk_app)
  /\ TodoApp.view_tasks garbage_app = Raised IndexError (printed [] garbage_app).
Proof.
  destruct (view_tasks_prints_numbered_lines milk_app) as (_ & H & _).
  destruct (view_tasks_prints_numbered_lines garbage_app) as (_ & _ & G).
  split.
  - assert (N : tasks milk_app <> []) by discriminate.
    exact (proj1 (H N eq_refl)).
  - exact (G [] ["garbage"] [] eq_refl eq_refl eq_refl).
Defined.

(** X7, an instance: the store made on the file that holds [garbage]. *)
Lemma entry_without_status_cuts_the_file_witness :
  TodoApp.has_both_fields (TodoApp.parse_line "garbage") = false
  /\ TodoApp.save_tasks garbage_app
     = Raised IndexError (set_content "" garbage_app)
  /\ tasks (final (TodoApp.add_task "Buy milk" garbage_app))
     = [["garbage"]; ["Buy milk"; "Pending"]].
Proof.
  destruct entry_without_status_cuts_the_file as (H1 & H2).
  split; [exact (H1 "garbage" eq_refl)|].
  destruct (H2 garbage_app [] ["garbage"] [] eq_refl eq_refl eq_refl eq_refl)
    as (S & A).
  split; [exact S|]. rewrite (A "Buy milk"). reflexivity.
Defined.

(** X8, an instance: the numbers 0 and 1 on the store of one task. *)
Lemma task_number_bounds_witness :
  TodoApp.remove_task 0 milk_app
  = Returned tt (printed ["Invalid task number."] milk_app)
  /\ tasks (final (TodoApp.remove_task 1 milk_app)) = [].
Proof.
  destruct (task_number_bounds 0 milk_app) as (H0 & _).
  destruct (task_number_bounds 1 milk_app) as (_ & H1).
  split.
  - assert (R : ~ (1 <= 0 <= Py.len (tasks milk_app)))
      by (change (~ (1 <= 0 <= 1)); lia).
    exact (proj2 (H0 R)).
  - assert (R : 1 <= 1 <= Py.len (tasks milk_app)) by (change (1 <= 1 <= 1); lia).
    destruct (H1 R) as (b & t & a & _). reflexivity.
Defined.

(** X9, an instance: a call on the store of one task. *)
Lemma own_entries_keep_both_fields_witness :
  Forall made_by_app (tasks milk_app)
  /\ exists s', TodoApp.run_call (TodoApp.Complete 1) milk_app = Returned tt s'.
Proof.
  assert (M : Forall made_by_app (tasks milk_app)).
  { constructor; [|constructor]. exists "Buy milk", "Pending". auto. }
  split; [exact M|].
  exact (proj1 (proj2 (proj2 own_entries_keep_both_fields))
           (TodoApp.Complete 1) milk_app M eq_refl).
Defined.

(** X10, an instance: a task is added and marked in a store that started
    without file. *)
Lemma text_store_restart_finds_the_collection_witness :
  in_step_text empty_app
  /\ TodoApp.init (disk (TodoApp.perform_all
                           [TodoApp.Add "Buy milk"; TodoApp.Complete 1] empty_app))
     = Returned tt
         (mkState "tasks.txt" [["Buy milk"; "Completed"]]
            (mkFile (Some (TodoApp.line_of "Buy milk" "Completed")) true true) []).
Proof.
  assert (I : in_step_text empty_app) by reflexivity.
  split; [exact I|].
  exact (proj2 (text_store_restart_finds_the_collection
                  [TodoApp.Add "Buy milk"; TodoApp.Complete 1] empty_app
                  eq_refl eq_refl eq_refl I eq_refl)).
Defined.



End MoreWitnesses.
